(** * cite-agent-mcp: the license gate and the tool dispatcher

    A shallow embedding of [src/mcp_server.py].  The two functions of
    interest are [validate_license_key] (the license gate) and
    [call_tool] (the dispatcher).  Everything they talk to (the Gumroad
    verification endpoint, the [cite-agent] subprocess, the research
    agent library, Zotero, the PDF download and reader) is an external
    collaborator: its answers are read from an oracle record, and every
    call to it is written to a log so that "was never invoked" is a
    statement about that log. *)

From Stdlib Require Import String Ascii ZArith NArith List Bool Lia DecimalString.
Import ListNotations.
Local Open Scope string_scope.
Local Open Scope Z_scope.
Local Set Warnings "-register-all".

(** ** Python values *)

Module Py.

(** The values that reach the server as decoded JSON.  Numbers are the
    integers.  A [str] is held as its UTF-8 encoding, so one character
    is one byte or a lead byte with its continuation bytes; whatever
    counts characters ([text[:n]]) counts them that way. *)
Inductive pyval : Type :=
| PNone
| PBool (b : bool)
| PInt (n : Z)
| PStr (s : string)
| PList (l : list pyval)
| PDict (d : list (string * pyval)).

(** An instance of Python's [Exception]; [str(e)] is [exn_msg]. *)
Record exn : Type := Exn { exn_class : string; exn_msg : string }.

Inductive outcome (A : Type) : Type :=
| Ret (a : A)
| Raise (e : exn).
Arguments Ret {A} a.
Arguments Raise {A} e.

(** [bool(v)] *)
Definition truthy (v : pyval) : bool :=
  match v with
  | PNone => false
  | PBool b => b
  | PInt n => negb (n =? 0)
  | PStr s => negb (String.eqb s EmptyString)
  | PList l => match l with [] => false | _ => true end
  | PDict d => match d with [] => false | _ => true end
  end.

(** [type(v).__name__] *)
Definition type_name (v : pyval) : string :=
  match v with
  | PNone => "NoneType"
  | PBool _ => "bool"
  | PInt _ => "int"
  | PStr _ => "str"
  | PList _ => "list"
  | PDict _ => "dict"
  end.

(** Dictionary lookup. *)
Fixpoint dict_get (d : list (string * pyval)) (k : string) : option pyval :=
  match d with
  | [] => None
  | (k', v) :: d' => if String.eqb k' k then Some v else dict_get d' k
  end.

(** *** Characters *)

(** A continuation byte of a UTF-8 sequence: [10xxxxxx]. *)
Definition is_continuation (c : ascii) : bool :=
  let n := nat_of_ascii c in Nat.leb 128 n && Nat.ltb n 192.

(** [len(s)]: the bytes that start a character. *)
Fixpoint char_count (s : string) : nat :=
  match s with
  | EmptyString => O
  | String c s' => ((if is_continuation c then 0 else 1) + char_count s')%nat
  end.

(** [s[:n]]: the first [n] characters, each with all its bytes. *)
Fixpoint str_take (n : nat) (s : string) : string :=
  match s with
  | EmptyString => EmptyString
  | String c s' =>
      if is_continuation c then String c (str_take n s')
      else match n with
           | O => EmptyString
           | S n' => String c (str_take n' s')
           end
  end.

(** The characters of a text, each as its bytes; the first component
    holds continuation bytes found before any lead byte. *)
Fixpoint utf8_split (s : string) : string * list string :=
  match s with
  | EmptyString => (EmptyString, [])
  | String c s' =>
      let (frag, chars) := utf8_split s' in
      if is_continuation c then (String c frag, chars)
      else (EmptyString, String c frag :: chars)
  end.

Fixpoint continuation_bits (acc : N) (s : string) : N :=
  match s with
  | EmptyString => acc
  | String c s' => continuation_bits (acc * 64 + (N_of_ascii c - 128)) s'
  end.

(** The code point a character's bytes encode. *)
Definition code_point (ch : string) : N :=
  match ch with
  | EmptyString => 0%N
  | String c rest =>
      let b := N_of_ascii c in
      let lead := if (b <? 128)%N then b
                  else if (b <? 224)%N then (b - 192)%N
                  else if (b <? 240)%N then (b - 224)%N
                  else (b - 240)%N in
      continuation_bits lead rest
  end.

(** *** [str] and [repr] *)

Definition nl : string := String (ascii_of_nat 10) EmptyString.
Definition dquote : ascii := ascii_of_nat 34.
Definition squote : ascii := ascii_of_nat 39.
Definition backslash : ascii := ascii_of_nat 92.

Definition hex_digit (n : nat) : ascii :=
  ascii_of_nat (if Nat.ltb n 10 then 48 + n else 87 + n).

Definition hex2 (n : nat) : string :=
  String (hex_digit (Nat.div n 16)) (String (hex_digit (Nat.modulo n 16)) EmptyString).

(** [width] lower-case hexadecimal digits of [n]. *)
Fixpoint hex (width : nat) (n : N) : string :=
  match width with
  | O => EmptyString
  | S w => String (hex_digit (N.to_nat ((n / 16 ^ N.of_nat w) mod 16))) (hex w n)
  end.

Fixpoint has_char (c : ascii) (s : string) : bool :=
  match s with
  | EmptyString => false
  | String c' s' => Ascii.eqb c c' || has_char c s'
  end.

(** The escape of one ASCII character between quotes [q]. *)
Definition repr_char (q c : ascii) : string :=
  let n := nat_of_ascii c in
  if Ascii.eqb c q || Ascii.eqb c backslash then String backslash (String c EmptyString)
  else if Nat.eqb n 9 then String backslash "t"
  else if Nat.eqb n 10 then String backslash "n"
  else if Nat.eqb n 13 then String backslash "r"
  else if Nat.ltb n 32 || Nat.eqb n 127 then String backslash (String "x" (hex2 n))
  else String c EmptyString.

Fixpoint concat_strings (l : list string) : string :=
  match l with
  | [] => EmptyString
  | x :: l' => x ++ concat_strings l'
  end.

Section Repr.

(** [str.isprintable] on the characters outside ASCII: the
    interpreter's Unicode table, which the source does not hold. *)
Variable printable : N -> bool.

(** One character between quotes [q]: an ASCII character as
    [repr_char] has it; any other is copied when printable and written
    as a [\x], [\u] or [\U] escape when not. *)
Definition repr_unit (q : ascii) (ch : string) : string :=
  match ch with
  | EmptyString => EmptyString
  | String c rest =>
      if Nat.ltb (nat_of_ascii c) 128 then repr_char q c ++ rest
      else
        let cp := code_point ch in
        if printable cp then ch
        else if (cp <=? 255)%N then String backslash (String "x" (hex 2 cp))
        else if (cp <=? 65535)%N then String backslash (String "u" (hex 4 cp))
        else String backslash (String "U" (hex 8 cp))
  end.

(** [repr(s)] for a [str]: single quotes unless the text has a single
    quote and no double quote. *)
Definition repr_str (s : string) : string :=
  let q := if has_char squote s && negb (has_char dquote s) then dquote else squote in
  let (frag, chars) := utf8_split s in
  String q (frag ++ concat_strings (map (repr_unit q) chars) ++ String q EmptyString).

End Repr.

(** The decimal digits of an integer, with a minus sign when
    negative. *)
Definition decimal (n : Z) : string := NilZero.string_of_int (Z.to_int n).

(** The interpreter's limit on integer to string conversion
    ([sys.get_int_max_str_digits()], 4300 digits by default). *)
Definition int_str_bound : Z := 10 ^ 4300.

Definition int_str_error : exn :=
  Exn "ValueError"
    "Exceeds the limit (4300 digits) for integer string conversion; use sys.set_int_max_str_digits() to increase the limit".

(** [str(n)] for an [int]: refused beyond 4300 digits. *)
Definition str_int (n : Z) : outcome string :=
  if Z.abs n <? int_str_bound then Ret (decimal n) else Raise int_str_error.

Fixpoint join (sep : string) (l : list string) : string :=
  match l with
  | [] => EmptyString
  | [x] => x
  | x :: l' => x ++ sep ++ join sep l'
  end.

(** The first failure of a sequence, or all its values. *)
Fixpoint collect {A} (l : list (outcome A)) : outcome (list A) :=
  match l with
  | [] => Ret []
  | Ret a :: l' =>
      match collect l' with
      | Ret r => Ret (a :: r)
      | Raise e => Raise e
      end
  | Raise e :: _ => Raise e
  end.

Definition outcome_map {A B} (f : A -> B) (o : outcome A) : outcome B :=
  match o with
  | Ret a => Ret (f a)
  | Raise e => Raise e
  end.

Fixpoint py_repr (printable : N -> bool) (v : pyval) : outcome string :=
  match v with
  | PNone => Ret "None"
  | PBool true => Ret "True"
  | PBool false => Ret "False"
  | PInt n => str_int n
  | PStr s => Ret (repr_str printable s)
  | PList l =>
      outcome_map (fun items => "[" ++ join ", " items ++ "]")
        (collect (map (py_repr printable) l))
  | PDict d =>
      outcome_map (fun items => "{" ++ join ", " items ++ "}")
        (collect (map (fun kv => outcome_map
                                   (fun r => repr_str printable (fst kv) ++ ": " ++ r)
                                   (py_repr printable (snd kv))) d))
  end.

(** [str(v)], which is what an f-string hole inserts. *)
Definition py_str (printable : N -> bool) (v : pyval) : outcome string :=
  match v with
  | PStr s => Ret s
  | _ => py_repr printable v
  end.

(** [s.startswith(p)] *)
Definition startswith (s p : string) : bool := String.prefix p s.

(** [obj.get(k, default)]: only a [dict] has the method. *)
Definition get_method (obj : pyval) (k : string) (default : pyval) : outcome pyval :=
  match obj with
  | PDict d => Ret (match dict_get d k with Some v => v | None => default end)
  | _ => Raise (Exn "AttributeError"
                 ("'" ++ type_name obj ++ "' object has no attribute 'get'"))
  end.

(** [KeyError(k)], whose [str] is [repr(k)]. *)
Definition key_error (printable : N -> bool) (k : string) : exn :=
  Exn "KeyError" (repr_str printable k).

(** [d[k]] on a [dict]. *)
Definition subscript (printable : N -> bool) (d : list (string * pyval)) (k : string)
  : outcome pyval :=
  match dict_get d k with
  | Some v => Ret v
  | None => Raise (key_error printable k)
  end.

(** [5 < v] as [min] evaluates it; only numbers compare with an [int]. *)
Definition int_lt (n : Z) (v : pyval) : outcome bool :=
  match v with
  | PInt m => Ret (n <? m)
  | PBool b => Ret (n <? (if b then 1 else 0))
  | _ => Raise (Exn "TypeError"
                 ("'<' not supported between instances of 'int' and '"
                    ++ type_name v ++ "'"))
  end.

(** [min(v, n)]: the first argument is kept unless the second is
    strictly smaller. *)
Definition py_min (v : pyval) (n : Z) : outcome pyval :=
  match int_lt n v with
  | Ret true => Ret (PInt n)
  | Ret false => Ret v
  | Raise e => Raise e
  end.

End Py.
Export Py.

(** ** Collaborators, configuration and the effect monad *)

(** Process-wide configuration, read from the environment:
    [CITE_AGENT_API_KEY], [GUMROAD_PERMALINK] (default
    ["cite-agent-pro"]), the two Zotero variables, and the directory
    [<parent of the server file>/Cite-Agent]; with it the table of
    printable characters of the interpreter the process runs in. *)
Record config : Type := Config {
  API_KEY : option string;
  GUMROAD_PRODUCT_PERMALINK : string;
  ZOTERO_USER_ID : option string;
  ZOTERO_API_KEY : option string;
  core_path : string;
  isprintable : N -> bool
}.

(** An [httpx] response: the status, what [resp.json()] gives (it
    raises on a body that is not JSON) and the raw content. *)
Record response : Type := Response {
  status_code : Z;
  json : outcome pyval;
  content : string
}.

(** What [agent.process_request] returns. *)
Record chat_response : Type := ChatResponse {
  error_message : pyval;
  response_text : pyval
}.

(** Every call that leaves the dispatcher.  [ClientOpen] and
    [ClientClose] are the two ends of an [async with
    httpx.AsyncClient()] block: building and entering the client, and
    leaving it. *)
Inductive call : Type :=
| ClientOpen
| LicenseVerify (permalink key : string)
| ClientClose
| SubprocessRun (cmd : list pyval)
| ImportAgent (path : list string)
| AgentNew
| AgentInitialize
| ChatRequestNew (question : pyval)
| AgentProcess (question : pyval)
| AgentClose
| ImportZotero
| ZoteroNew (user_id api_key : option string)
| ZoteroTop (q : pyval)
| JsonDumps (items : pyval)
| ImportPdfReader
| HttpGet (url : string)
| PdfOpen (data : string)
| PdfExtract (page : nat).

(** The calls that do the work behind a tool.  The license endpoint
    belongs to the gate, and building or leaving an HTTP client asks
    nothing of a collaborator. *)
Definition is_delegation (c : call) : bool :=
  match c with
  | ClientOpen | LicenseVerify _ _ | ClientClose => false
  | _ => true
  end.

Inductive event : Type :=
| Called (c : call)
| Raised (c : call) (e : exn).

(** The external answers observed during one invocation.  An import
    is answered under the module search path in force when it runs.
    The answers do not change while the invocation runs: the client of
    the gate and the client of the download of [read_arxiv_pdf] are
    built and left with the same outcome. *)
Record world : Type := World {
  client_open : outcome unit;
  license_verify : string -> string -> outcome response;
  client_close : outcome unit;
  subprocess_run : list pyval -> outcome string;
  import_agent : list string -> outcome unit;
  agent_new : outcome unit;
  agent_initialize : outcome unit;
  chat_request_new : pyval -> outcome unit;
  agent_process : pyval -> outcome chat_response;
  agent_close : outcome unit;
  import_zotero : list string -> outcome unit;
  zotero_new : option string -> option string -> outcome unit;
  zotero_top : pyval -> outcome pyval;
  json_dumps : pyval -> outcome string;
  import_pdf_reader : list string -> outcome unit;
  http_get : string -> outcome response;
  pdf_open : string -> outcome nat;
  pdf_extract : string -> nat -> outcome string
}.

(** What a call can change: the interpreter's module search path
    [sys.path], which outlives the call, and the log of the call. *)
Record pstate : Type := PState {
  sys_path : list string;
  log : list event
}.

Definition M (A : Type) : Type := config -> world -> pstate -> outcome A * pstate.

Definition ret {A} (a : A) : M A := fun _ _ s => (Ret a, s).

Definition bind {A B} (m : M A) (k : A -> M B) : M B :=
  fun c w s =>
    match m c w s with
    | (Ret a, s') => k a c w s'
    | (Raise e, s') => (Raise e, s')
    end.

Definition raise {A} (e : exn) : M A := fun _ _ s => (Raise e, s).

(** [try: m  except Exception as e: h e] *)
Definition try_except {A} (m : M A) (h : exn -> M A) : M A :=
  fun c w s =>
    match m c w s with
    | (Ret a, s') => (Ret a, s')
    | (Raise e, s') => h e c w s'
    end.

Definition lift {A} (o : outcome A) : M A := fun _ _ s => (o, s).

Definition ask : M config := fun c _ s => (Ret c, s).

Definition record (ev : event) (s : pstate) : pstate :=
  PState (sys_path s) (log s ++ [ev]).

(** Call a collaborator: the call is logged, and so is what it raised. *)
Definition perform {A} (c : call) (answer : world -> outcome A) : M A :=
  fun _ w s =>
    let s1 := record (Called c) s in
    match answer w with
    | Ret a => (Ret a, s1)
    | Raise e => (Raise e, record (Raised c e) s1)
    end.

Definition get_sys_path : M (list string) := fun _ _ s => (Ret (sys_path s), s).

Definition set_sys_path (p : list string) : M unit :=
  fun _ _ s => (Ret tt, PState p (log s)).

(** [arguments[k]] *)
Definition getitem (arguments : list (string * pyval)) (k : string) : M pyval :=
  fun c _ s => (subscript (isprintable c) arguments k, s).

(** One hole of an f-string: [str(v)]. *)
Definition fstr (v : pyval) : M string :=
  fun c _ s => (py_str (isprintable c) v, s).

Declare Scope py_scope.
Delimit Scope py_scope with py.
Notation "x <- m ;; k" := (bind m (fun x => k))
  (at level 61, m at next level, right associativity) : py_scope.
Notation "m ;; k" := (bind m (fun _ => k))
  (at level 61, right associativity) : py_scope.
Local Open Scope py_scope.

(** ** The license gate *)

Definition verify_url : string := "https://api.gumroad.com/v2/licenses/verify".

(** [not key] for the value of [os.getenv]. *)
Definition key_missing (key : option string) : bool :=
  match key with
  | None => true
  | Some k => String.eqb k EmptyString
  end.

(** The [try] block of [validate_license_key].  The [and] returns its
    left operand when that is falsy, so the value returned is a Python
    value and it is its truth value that the dispatcher tests. *)
Definition verify_license (k : string) : M pyval :=
  try_except
    (cfg <- ask ;;
     resp <- perform (LicenseVerify (GUMROAD_PRODUCT_PERMALINK cfg) k)
               (fun w => license_verify w (GUMROAD_PRODUCT_PERMALINK cfg) k) ;;
     if status_code resp =? 200 then
       data <- lift (json resp) ;;
       success <- lift (get_method data "success" (PBool false)) ;;
       if truthy success then
         purchase <- lift (get_method data "purchase" (PDict [])) ;;
         refunded <- lift (get_method purchase "refunded" (PBool false)) ;;
         ret (PBool (negb (truthy refunded)))
       else ret success
     else ret (PBool false))
    (fun _ => ret (PBool false)).

(** [async with httpx.AsyncClient() as client: body].  The client is
    built and entered, the body runs, and the client is left whether
    the body returned or raised; what leaving it raises replaces the
    outcome of the body. *)
Definition with_client {A} (body : M A) : M A :=
  perform ClientOpen client_open ;;
  (fun cfg w s =>
     let (o, s1) := body cfg w s in
     match perform ClientClose client_close cfg w s1 with
     | (Ret _, s2) => (o, s2)
     | (Raise e, s2) => (Raise e, s2)
     end).

(** [validate_license_key].  The [try] block lies inside the
    [async with], so what building or leaving the client raises is not
    caught here. *)
Definition validate_license_key (key : option string) : M pyval :=
  match key with
  | None => ret (PBool false)
  | Some k =>
      if String.eqb k EmptyString then ret (PBool false)
      else with_client (verify_license k)
  end.

(** ** The dispatcher *)

Record TextContent : Type := mkTextContent { type : string; text : string }.

Definition text_content (t : string) : list TextContent := [mkTextContent "text" t].

(** The notice returned for a gated tool. *)
Definition locked_notice (permalink name : string) : string :=
  "⚠️ **PRO Feature Locked**" ++ nl ++ nl ++
  "'" ++ name ++ "' requires a Cite-Agent Pro license." ++ nl ++ nl ++
  "👉 **Get your key here:** https://gumroad.com/l/" ++ permalink ++ nl ++ nl ++
  "Set the CITE_AGENT_API_KEY environment variable to unlock.".

(** [subprocess.run(cmd, capture_output=True, text=True, timeout=60)]
    followed by [result.stdout]. *)
Definition run_cli (cmd : list pyval) : M string :=
  perform (SubprocessRun cmd) (fun w => subprocess_run w cmd).

(** [if core_path not in sys.path: sys.path.insert(0, core_path)] *)
Definition ensure_core_path : M unit :=
  cfg <- ask ;;
  p <- get_sys_path ;;
  if existsb (String.eqb (core_path cfg)) p then ret tt
  else set_sys_path (core_path cfg :: p).

(** [url_or_id] turned into the address that is fetched. *)
Definition arxiv_url (v : pyval) : outcome string :=
  match v with
  | PStr s =>
      Ret (if negb (startswith s "http") then "https://arxiv.org/pdf/" ++ s ++ ".pdf" else s)
  | _ => Raise (Exn "AttributeError"
                 ("'" ++ type_name v ++ "' object has no attribute 'startswith'"))
  end.

(** [for i in pages: text += reader.pages[i].extract_text()] *)
Fixpoint extract_pages (data : string) (pages : list nat) (text : string) : M string :=
  match pages with
  | [] => ret text
  | i :: rest =>
      t <- perform (PdfExtract i) (fun w => pdf_extract w data i) ;;
      extract_pages data rest (text ++ t)
  end.

(** The address fetched for a textual identifier. *)
Definition fetched_url (s : string) : string :=
  if startswith s "http" then s else "https://arxiv.org/pdf/" ++ s ++ ".pdf".


Definition full_text_header : string := "📄 **Full Text (First 10 pages)**" ++ nl ++ nl.

Definition page_limit : nat := 10.
Definition text_budget : nat := Z.to_nat 15000.

Definition search_papers (is_pro : pyval) (arguments : list (string * pyval))
  : M (list TextContent) :=
  query <- getitem arguments "query" ;;
  max_results <- lift (get_method (PDict arguments) "max_results" (PInt 10)) ;;
  max_results <- (if negb (truthy is_pro) then lift (py_min max_results 5)
                  else ret max_results) ;;
  topic <- fstr query ;;
  count <- fstr max_results ;;
  out <- run_cli [PStr "cite-agent";
                  PStr ("Find academic papers on: " ++ topic ++ ". Show "
                          ++ count ++ " results.")] ;;
  ret (text_content out).

(** The agent library at work, once the search path is [path]. *)
Definition agent_session (path : list string) (arguments : list (string * pyval))
  : M (list TextContent) :=
  perform (ImportAgent path) (fun w => import_agent w path) ;;
  perform AgentNew agent_new ;;
  perform AgentInitialize agent_initialize ;;
  question <- getitem arguments "question" ;;
  perform (ChatRequestNew question) (fun w => chat_request_new w question) ;;
  response <- perform (AgentProcess question) (fun w => agent_process w question) ;;
  perform AgentClose agent_close ;;
  if truthy (error_message response) then
    message <- fstr (error_message response) ;;
    ret (text_content ("❌ Agent Error: " ++ message))
  else
    answer <- fstr (response_text response) ;;
    ret (text_content ("🧠 **Deep Research Synthesis**" ++ nl ++ nl ++ answer)).

Definition integration_error (e : exn) : string := "❌ Integration Error: " ++ exn_msg e.

Definition research_deep_dive (arguments : list (string * pyval)) : M (list TextContent) :=
  try_except
    (ensure_core_path ;;
     path <- get_sys_path ;;
     agent_session path arguments)
    (fun e => ret (text_content (integration_error e))).

Definition zotero_error (e : exn) : string :=
  "❌ Zotero Error: " ++ exn_msg e
    ++ ". Ensure ZOTERO_USER_ID and ZOTERO_API_KEY are set.".

(** The [try] block of the Zotero handler. *)
Definition zotero_session (arguments : list (string * pyval)) : M (list TextContent) :=
  cfg <- ask ;;
  path <- get_sys_path ;;
  perform ImportZotero (fun w => import_zotero w path) ;;
  perform (ZoteroNew (ZOTERO_USER_ID cfg) (ZOTERO_API_KEY cfg))
    (fun w => zotero_new w (ZOTERO_USER_ID cfg) (ZOTERO_API_KEY cfg)) ;;
  q <- getitem arguments "query" ;;
  items <- perform (ZoteroTop q) (fun w => zotero_top w q) ;;
  out <- perform (JsonDumps items) (fun w => json_dumps w items) ;;
  ret (text_content out).

Definition get_zotero_papers (arguments : list (string * pyval)) : M (list TextContent) :=
  try_except (zotero_session arguments)
    (fun e => ret (text_content (zotero_error e))).

(** The body of the [async with] block of [read_arxiv_pdf]. *)
Definition arxiv_download (url : string) : M (list TextContent) :=
  resp <- perform (HttpGet url) (fun w => http_get w url) ;;
  if negb (status_code resp =? 200) then
    status <- lift (str_int (status_code resp)) ;;
    ret (text_content ("❌ Failed to download PDF: " ++ status))
  else
    n <- perform (PdfOpen (content resp)) (fun w => pdf_open w (content resp)) ;;
    body <- extract_pages (content resp) (seq 0 (Nat.min page_limit n)) EmptyString ;;
    ret (text_content (full_text_header ++ str_take text_budget body ++ "...")).

Definition read_arxiv_pdf (arguments : list (string * pyval)) : M (list TextContent) :=
  path <- get_sys_path ;;
  perform ImportPdfReader (fun w => import_pdf_reader w path) ;;
  v <- getitem arguments "url_or_id" ;;
  url <- lift (arxiv_url v) ;;
  with_client (arxiv_download url).

Definition verify_citation (arguments : list (string * pyval)) : M (list TextContent) :=
  citation <- getitem arguments "citation" ;;
  shown <- fstr citation ;;
  out <- run_cli [PStr "cite-agent"; PStr ("Verify this citation: " ++ shown)] ;;
  ret (text_content out).

Definition get_financial_data (arguments : list (string * pyval)) : M (list TextContent) :=
  query <- getitem arguments "query" ;;
  out <- run_cli [PStr "cite-agent"; query] ;;
  ret (text_content out).

Definition system_error (e : exn) : string := "❌ System Error: " ++ exn_msg e.

(** The body of the [try] block of [call_tool]: the chain of
    comparisons on [name]. *)
Definition dispatch (name : string) (is_pro : pyval) (arguments : list (string * pyval))
  : M (list TextContent) :=
  if String.eqb name "search_papers" then search_papers is_pro arguments
  else if String.eqb name "research_deep_dive" then research_deep_dive arguments
  else if String.eqb name "get_zotero_papers" then get_zotero_papers arguments
  else if String.eqb name "read_arxiv_pdf" then read_arxiv_pdf arguments
  else if String.eqb name "verify_citation" then verify_citation arguments
  else if String.eqb name "get_financial_data" then get_financial_data arguments
  else raise (Exn "ValueError" ("Unknown tool: " ++ name)).

(** [call_tool].  The gate is awaited before the [try] block. *)
Definition call_tool (name : string) (arguments : list (string * pyval))
  : M (list TextContent) :=
  cfg <- ask ;;
  is_pro <- validate_license_key (API_KEY cfg) ;;
  if negb (String.eqb name "search_papers") && negb (truthy is_pro) then
    ret (text_content (locked_notice (GUMROAD_PRODUCT_PERMALINK cfg) name))
  else
    try_except (dispatch name is_pro arguments)
      (fun e => ret (text_content (system_error e))).

(** The names [list_tools] announces. *)
Definition catalog : list string :=
  ["search_papers"; "research_deep_dive"; "get_zotero_papers";
   "read_arxiv_pdf"; "verify_citation"; "get_financial_data"].

(** ** The advertised tools *)

Module Tool.

(** [mcp.types.Tool] as [list_tools] fills it in. *)
Record t : Type := make { name : string; description : string; inputSchema : pyval }.

(** The keys the schema lists under [required]. *)
Definition required (x : t) : list string :=
  match inputSchema x with
  | PDict d =>
      match dict_get d "required" with
      | Some (PList l) =>
          flat_map (fun v => match v with PStr k => [k] | _ => [] end) l
      | _ => []
      end
  | _ => []
  end.

End Tool.

(** [list_tools] *)
Definition list_tools : list Tool.t :=
  [Tool.make "search_papers"
     "[FREE] Search 200M+ academic papers from Semantic Scholar, OpenAlex, and PubMed. Returns titles, abstracts, and DOIs."
     (PDict
        [("type", PStr "object");
         ("properties",
          PDict
            [("query",
              PDict [("type", PStr "string");
                     ("description",
                      PStr "Research topic (e.g., 'transformer architecture')")]);
             ("max_results",
              PDict [("type", PStr "integer");
                     ("description", PStr "Results count (max 10 for free users)");
                     ("default", PInt 10)])]);
         ("required", PList [PStr "query"])]);
   Tool.make "research_deep_dive"
     "[PRO] Perform institutional-grade literature review. Synthesizes findings from 200M+ papers into a comprehensive report with citations. Use for complex research questions."
     (PDict
        [("type", PStr "object");
         ("properties",
          PDict
            [("question",
              PDict [("type", PStr "string");
                     ("description",
                      PStr "The complex research question to answer (e.g. 'Synthesize current research on LLM alignment techniques')")])]);
         ("required", PList [PStr "question"])]);
   Tool.make "get_zotero_papers"
     "[PRO] Search and retrieve metadata/notes from your personal Zotero library. Requires Zotero API configuration."
     (PDict
        [("type", PStr "object");
         ("properties",
          PDict
            [("query",
              PDict [("type", PStr "string");
                     ("description", PStr "Search term within your Zotero library")])]);
         ("required", PList [PStr "query"])]);
   Tool.make "read_arxiv_pdf"
     "[PRO] Download and read the full text of an ArXiv paper using its PDF URL or ID. Best for deep analysis beyond abstracts."
     (PDict
        [("type", PStr "object");
         ("properties",
          PDict
            [("url_or_id",
              PDict [("type", PStr "string");
                     ("description",
                      PStr "ArXiv PDF URL (e.g. https://arxiv.org/pdf/2308.07901.pdf) or ID (2308.07901)")])]);
         ("required", PList [PStr "url_or_id"])]);
   Tool.make "verify_citation"
     "[PRO] Verify academic citations and check if claims are supported by sources. Requires License Key."
     (PDict
        [("type", PStr "object");
         ("properties",
          PDict
            [("citation",
              PDict [("type", PStr "string");
                     ("description", PStr "Full citation text to verify")])]);
         ("required", PList [PStr "citation"])]);
   Tool.make "get_financial_data"
     "[PRO] Get verified financial data from SEC EDGAR and FRED. Requires License Key."
     (PDict
        [("type", PStr "object");
         ("properties",
          PDict
            [("query",
              PDict [("type", PStr "string");
                     ("description",
                      PStr "Ticker or financial question (e.g. 'AAPL Revenue')")])]);
         ("required", PList [PStr "query"])])].

(** ** Running an invocation *)

(** One invocation, started with module search path [p] and an empty
    log: what it returns, what it logged, and the search path it
    leaves behind. *)
Definition invoke (cfg : config) (w : world) (p : list string)
    (name : string) (arguments : list (string * pyval))
  : outcome (list TextContent) * list event * list string :=
  let '(o, s) := call_tool name arguments cfg w (PState p []) in
  (o, log s, sys_path s).

Definition result_of {A B C} (x : A * B * C) : A := fst (fst x).
Definition log_of {A B C} (x : A * B * C) : B := snd (fst x).
Definition path_of {A B C} (x : A * B * C) : C := snd x.

(** What the gate hands to the dispatcher: a value, or the exception
    that building or leaving its client raised. *)
Definition gate_value (cfg : config) (w : world) : outcome pyval :=
  fst (validate_license_key (API_KEY cfg) cfg w (PState [] [])).

Definition gate_log (cfg : config) (w : world) : list event :=
  log (snd (validate_license_key (API_KEY cfg) cfg w (PState [] []))).

(** The truth value of what the gate returned; [None] when it raised. *)
Definition entitled (cfg : config) (w : world) : option bool :=
  match gate_value cfg w with
  | Ret v => Some (truthy v)
  | Raise _ => None
  end.

(** The delegation calls of a log, in order. *)
Definition delegated (l : list event) : list call :=
  flat_map (fun ev => match ev with
                      | Called c => if is_delegation c then [c] else []
                      | Raised _ _ => []
                      end) l.

(** The verification requests of a log. *)
Definition verifications (l : list event) : list call :=
  flat_map (fun ev => match ev with
                      | Called (LicenseVerify a b) => [LicenseVerify a b]
                      | _ => []
                      end) l.

Definition contains (s sub : string) : Prop :=
  exists pre post, s = pre ++ sub ++ post.

(** A result that is one error notice: a single text that opens with
    the cross mark the three [except] handlers and the download check
    put in front. *)
Definition is_error_notice (r : list TextContent) : bool :=
  match r with
  | [t] => String.eqb (type t) "text" && startswith (text t) "❌ "
  | _ => false
  end.

Definition is_locked_notice (r : list TextContent) : bool :=
  match r with
  | [t] => String.eqb (type t) "text" && startswith (text t) "⚠️ **PRO Feature Locked**"
  | _ => false
  end.

(** The key a catalog tool reads with [arguments[...]]. *)
Definition required_key (name : string) : option string :=
  if String.eqb name "search_papers" then Some "query"
  else if String.eqb name "research_deep_dive" then Some "question"
  else if String.eqb name "get_zotero_papers" then Some "query"
  else if String.eqb name "read_arxiv_pdf" then Some "url_or_id"
  else if String.eqb name "verify_citation" then Some "citation"
  else if String.eqb name "get_financial_data" then Some "query"
  else None.

(** *** A server session *)

Record request : Type := Request {
  req_name : string;
  req_arguments : list (string * pyval);
  req_world : world
}.

Definition answer (cfg : config) (p : list string) (r : request)
  : outcome (list TextContent) * list event :=
  fst (invoke cfg (req_world r) p (req_name r) (req_arguments r)).


(** The search path a session leaves behind. *)
Fixpoint final_path (cfg : config) (p : list string) (reqs : list request) : list string :=
  match reqs with
  | [] => p
  | r :: rest =>
      final_path cfg
        (path_of (invoke cfg (req_world r) p (req_name r) (req_arguments r))) rest
  end.

(** The search path once [ensure_core_path] has run. *)
Definition effective (core : string) (p : list string) : list string :=
  if existsb (String.eqb core) p then p else core :: p.

(** A request that is a deep dive of an entitled caller. *)
Definition entitled_deep_dive (cfg : config) (r : request) : bool :=
  String.eqb (req_name r) "research_deep_dive"
  && match entitled cfg (req_world r) with Some true => true | _ => false end.

(** The search path after the requests [before]. *)
Definition path_after (cfg : config) (p : list string) (before : list request)
  : list string :=
  if existsb (entitled_deep_dive cfg) before then effective (core_path cfg) p else p.

(** *** The tools that shell out *)

Definition obind {A B} (o : outcome A) (k : A -> outcome B) : outcome B :=
  match o with
  | Ret a => k a
  | Raise e => Raise e
  end.

(** The count [search_papers] starts from, and the one it ends with:
    [arguments.get("max_results", 10)], clamped for a caller who is
    not entitled. *)
Definition requested_count (arguments : list (string * pyval)) : pyval :=
  match dict_get arguments "max_results" with
  | Some v => v
  | None => PInt 10
  end.

Definition effective_count (pro : bool) (arguments : list (string * pyval))
  : outcome pyval :=
  if pro then Ret (requested_count arguments) else py_min (requested_count arguments) 5.

(** The command each of the three tools builds, or the exception that
    stops it before any subprocess is started. *)
Definition search_plan (cfg : config) (pro : bool) (arguments : list (string * pyval))
  : outcome (list pyval) :=
  obind (subscript (isprintable cfg) arguments "query") (fun query =>
  obind (effective_count pro arguments) (fun max_results =>
  obind (py_str (isprintable cfg) query) (fun topic =>
  obind (py_str (isprintable cfg) max_results) (fun count =>
  Ret [PStr "cite-agent";
       PStr ("Find academic papers on: " ++ topic ++ ". Show " ++ count ++ " results.")])))).

Definition verify_plan (cfg : config) (arguments : list (string * pyval))
  : outcome (list pyval) :=
  obind (subscript (isprintable cfg) arguments "citation") (fun citation =>
  obind (py_str (isprintable cfg) citation) (fun shown =>
  Ret [PStr "cite-agent"; PStr ("Verify this citation: " ++ shown)])).

Definition financial_plan (cfg : config) (arguments : list (string * pyval))
  : outcome (list pyval) :=
  obind (subscript (isprintable cfg) arguments "query") (fun query =>
  Ret [PStr "cite-agent"; query]).

(** What a tool that shells out returns for the command [cmd]: the
    standard output, or the notice of what the subprocess raised. *)
Definition cli_result (w : world) (cmd : list pyval) : list TextContent :=
  match subprocess_run w cmd with
  | Ret out => text_content out
  | Raise e => text_content (system_error e)
  end.

(** What such a tool returns and delegates for its plan. *)
Definition cli_outcome (w : world) (plan : outcome (list pyval))
  : list TextContent * list call :=
  match plan with
  | Ret cmd => (cli_result w cmd, [SubprocessRun cmd])
  | Raise e => (text_content (system_error e), [])
  end.

(** The tools that shell out to [cite-agent]. *)
Definition cli_tools : list string :=
  ["search_papers"; "verify_citation"; "get_financial_data"].

(** *** Vocabulary for the statements *)

(** A computation that, when it returns, returns one [TextContent] of
    type [text]. *)
Definition single_text (m : M (list TextContent)) : Prop :=
  forall cfg w s r, fst (m cfg w s) = Ret r -> exists t, r = text_content t.

(** [o] is one error notice that carries the message of [e]. *)
Definition reported (e : exn) (o : outcome (list TextContent)) : Prop :=
  exists t, o = Ret [t] /\ is_error_notice [t] = true /\ contains (text t) (exn_msg e).

(** An event that is not on a collaborator behind a tool. *)
Definition own_event (ev : event) : Prop :=
  match ev with
  | Called c => is_delegation c = false
  | Raised c _ => is_delegation c = false
  end.

(** A world in which an HTTP client can be built and left. *)
Definition calm (w : world) : Prop := client_open w = Ret tt /\ client_close w = Ret tt.

Definition anywhere (w : world) : Prop := True.

(** Where the handler of [name] can run: the handlers of the paid
    tools run only after a gate that built and left its client. *)
Definition reachable (name : string) (w : world) : Prop :=
  name = "search_papers" \/ calm w.

(** A computation that, in the worlds of [P], leaves [sys.path]
    alone, whose outcome and events depend on the state it starts from
    only through the search path, in which a collaborator's exception
    is the outcome, and which sends nothing to the license endpoint. *)
Definition steady {A} (P : world -> Prop) (m : M A) : Prop :=
  forall cfg w p, P w -> exists o evs,
    (forall l, m cfg w (PState p l) = (o, PState p (l ++ evs))) /\
    (forall c e, In (Raised c e) evs -> o = Raise e) /\
    verifications evs = [].

(** The same for a tool handler, which may have turned the exception
    into a notice and may have extended [sys.path] with the core
    directory. *)
Definition settled (P : world -> Prop) (m : M (list TextContent)) : Prop :=
  forall cfg w p, P w -> exists o evs p',
    (forall l, m cfg w (PState p l) = (o, PState p' (l ++ evs))) /\
    (p' = p \/ p' = effective (core_path cfg) p) /\
    (forall c e, In (Raised c e) evs -> o = Raise e \/ reported e o) /\
    verifications evs = [].

(** ** The specification's readings *)

(** Success statuses as the specification counts them: 2xx. *)
Definition http_success (st : Z) : bool := (200 <=? st) && (st <? 300).

Definition flag (d : list (string * pyval)) (k : string) : bool :=
  match dict_get d k with
  | Some v => truthy v
  | None => false
  end.

(** "HTTP success status, a success flag that is true, and a purchase
    refund flag that is false or absent". *)
Definition spec_entitled (o : outcome response) : bool :=
  match o with
  | Raise _ => false
  | Ret r =>
      http_success (status_code r) &&
      match json r with
      | Ret (PDict d) =>
          flag d "success" &&
          match dict_get d "purchase" with
          | Some (PDict pu) => negb (flag pu "refunded")
          | _ => true
          end
      | _ => false
      end
  end.


(** What the code accepts: status 200, a JSON object with a truthy
    [success], and [purchase] missing or an object whose [refunded] is
    missing or falsy. *)
Definition accepted (r : response) : Prop :=
  status_code r = 200 /\
  exists d, json r = Ret (PDict d) /\
    flag d "success" = true /\
    (dict_get d "purchase" = None \/
     exists pu, dict_get d "purchase" = Some (PDict pu) /\ flag pu "refunded" = false).

(** ** Sample configurations and collaborators *)

Module Sample.



Definition body (success refunded : bool) : pyval :=
  PDict [("success", PBool success); ("purchase", PDict [("refunded", PBool refunded)])].

Definition pdf_response : response :=
  Response 200 (Raise (Exn "JSONDecodeError" "Expecting value")) "%PDF".

(** The collaborators that vary in the samples; all the others
    succeed. *)
Definition make (opened : outcome unit) (license : outcome response)
    (cli : outcome string) (reader : list string -> outcome unit)
    (got : outcome response) (pages : nat) (extract : nat -> outcome string) : world :=
  World opened (fun _ _ => license) (Ret tt) (fun _ => cli)
        (fun _ => Ret tt) (Ret tt) (Ret tt) (fun _ => Ret tt)
        (fun _ => Ret (ChatResponse PNone (PStr "synthesis")))
        (Ret tt) (fun _ => Ret tt) (fun _ _ => Ret tt) (fun _ => Ret (PList []))
        (fun _ => Ret "[]") reader
        (fun _ => got) (fun _ => Ret pages) (fun _ i => extract i).

Definition two_pages (i : nat) : outcome string :=
  Ret (if Nat.eqb i 0 then "page one " else "page two").

(** The license endpoint answers [st] with the given body; the CLI
    prints [out]; a two page PDF is served for any address. *)
Definition online (st : Z) (b : outcome pyval) (out : outcome string) : world :=
  make (Ret tt) (Ret (Response st b EmptyString)) out (fun _ => Ret tt)
    (Ret pdf_response) 2 two_pages.

Definition licensed : world := online 200 (Ret (body true false)) (Ret "ok").

(** The endpoint answers 201 Created with a body that vouches for the
    purchase. *)
Definition created : world := online 201 (Ret (body true false)) (Ret "ok").

(** No HTTP client can be built. *)
Definition broken_client : world :=
  make (Raise (Exn "ImportError" "Using SOCKS proxy, but the 'socksio' package is not installed."))
    (Ret (Response 200 (Ret (body true false)) EmptyString)) (Ret "ok") (fun _ => Ret tt)
    (Ret pdf_response) 2 two_pages.





(** A session: a deep dive, the same again while the endpoint refuses
    the license, then a search. *)
Definition session : list request :=
  [Request "research_deep_dive" [("question", PStr "LLM alignment")] licensed;
   Request "research_deep_dive" [("question", PStr "LLM alignment")] created;
   Request "search_papers" [("query", PStr "LLM alignment")] licensed].


Definition free_cfg : config :=
  Config None "cite-agent-pro" None None "/srv/Cite-Agent" (fun _ => true).
Definition pro_cfg : config :=
  Config (Some "KEY-1234") "cite-agent-pro" None None "/srv/Cite-Agent" (fun _ => true).

End Sample.

(** ** Properties of the license gate *)

Arguments int_str_bound : simpl never.

Ltac run_m :=
  unfold with_client, bind, ret, lift, ask, raise, perform, try_except, get_sys_path,
    set_sys_path, getitem, fstr, record; cbn [fst snd sys_path log].

Lemma pstate_eta (s : pstate) : PState (sys_path s) (log s) = s.
Proof. destruct s; reflexivity. Qed.

Lemma eqb_empty_false (k : string) : k <> EmptyString -> String.eqb k EmptyString = false.
Proof. intros H. apply String.eqb_neq. exact H. Qed.

Lemma accepted_inv r :
  accepted r ->
  exists d, status_code r = 200 /\ json r = Ret (PDict d) /\ flag d "success" = true /\
    (dict_get d "purchase" = None \/
     exists pu, dict_get d "purchase" = Some (PDict pu) /\ flag pu "refunded" = false).
Proof. intros (Hs & d & Hj & Hf & Hp). exists d. auto. Qed.

Ltac refute_accepted :=
  let r' := fresh "r" in let Hr := fresh "Hr" in let Ha := fresh "Ha" in
  let d' := fresh "d" in let Hs := fresh "Hs" in let Hj := fresh "Hj" in
  let Hf := fresh "Hf" in let Hp := fresh "Hp" in
  intros (r' & Hr & Ha);
  first
    [ discriminate Hr
    | injection Hr as <-;
      destruct (accepted_inv _ Ha) as (d' & Hs & Hj & Hf & Hp);
      first
        [ congruence
        | match goal with
          | J : json _ = Ret _ |- _ => rewrite J in Hj; injection Hj as <-
          end;
          unfold flag in *;
          repeat match goal with
                 | E : dict_get _ _ = _ |- _ => rewrite E in *
                 end;
          first
            [ congruence
            | destruct Hp as [Hp | (pu' & Hp & Hq)];
              [ congruence
              | first [ congruence
                      | injection Hp as <-;
                        repeat match goal with
                               | E : dict_get _ _ = _ |- _ => rewrite E in *
                               end; congruence ] ] ] ] ].

Ltac denied :=
  do 2 eexists;
  (split; [ intros s; rewrite <- ?app_assoc; reflexivity | ]);
  (split; [ first [ left; reflexivity | right; eexists; reflexivity ] | ]);
  (split; [ | discriminate ]);
  (split; [ discriminate | refute_accepted ]).

Ltac granted :=
  do 2 eexists;
  (split; [ intros s; rewrite <- ?app_assoc; reflexivity | ]);
  (split; [ left; reflexivity | ]);
  (split; [ | reflexivity ]).

(** The [try] block of the gate: it sends one request, always returns
    a value, and the value is truthy, and then [True], exactly for the
    responses the code accepts. *)
Lemma verify_license_run k cfg w :
  exists v evs,
    (forall s, verify_license k cfg w s = (Ret v, PState (sys_path s) (log s ++ evs))) /\
    (evs = [Called (LicenseVerify (GUMROAD_PRODUCT_PERMALINK cfg) k)] \/
     exists e, evs = [Called (LicenseVerify (GUMROAD_PRODUCT_PERMALINK cfg) k);
                      Raised (LicenseVerify (GUMROAD_PRODUCT_PERMALINK cfg) k) e]) /\
    (truthy v = true <->
       exists r, license_verify w (GUMROAD_PRODUCT_PERMALINK cfg) k = Ret r /\ accepted r) /\
    (truthy v = true -> v = PBool true).
Proof.
  unfold verify_license. run_m.
  destruct (license_verify w (GUMROAD_PRODUCT_PERMALINK cfg) k) as [r|e] eqn:Hv;
    cbn [fst snd sys_path log]; [ | denied ].
  destruct (Z.eqb_spec (status_code r) 200) as [Hst|Hst]; cbn [fst snd sys_path log];
    [ | denied ].
  destruct (json r) as [data|e] eqn:Hj; cbn [fst snd sys_path log]; [ | denied ].
  destruct data as [ | b | n | t | l | d ]; cbn [get_method fst snd sys_path log];
    try solve [ denied ].
  destruct (dict_get d "success") as [sv|] eqn:Hsv; cbn [truthy fst snd sys_path log];
    [ | denied ].
  destruct (truthy sv) eqn:Ht; cbn [fst snd sys_path log].
  2: { do 2 eexists.
       split; [ intros s; rewrite <- ?app_assoc; reflexivity | ].
       split; [ left; reflexivity | ].
       rewrite Ht. split; [ | discriminate ].
       split; [ discriminate | refute_accepted ]. }
  assert (Hflag : flag d "success" = true) by (unfold flag; rewrite Hsv; exact Ht).
  destruct (dict_get d "purchase") as [pv|] eqn:Hpv; cbn [get_method dict_get fst snd sys_path log].
  2: { granted. split; [ intros _ | reflexivity ].
       exists r. split; [ reflexivity | ]. split; [ exact Hst | ].
       exists d. auto. }
  destruct pv as [ | b | n | t | l | pu ]; cbn [get_method fst snd sys_path log];
    try solve [ clear Hflag; denied ].
  destruct (dict_get pu "refunded") as [rv|] eqn:Hrv; cbn [truthy negb fst snd sys_path log].
  - destruct (truthy rv) eqn:Hr; cbn [negb].
    + clear Hflag. denied.
    + granted. split; [ intros _ | reflexivity ].
      exists r. split; [ reflexivity | ]. split; [ exact Hst | ].
      exists d. split; [ exact Hj | ]. split; [ exact Hflag | ].
      right. exists pu. split; [ exact Hpv | ]. unfold flag. rewrite Hrv. exact Hr.
  - granted. split; [ intros _ | reflexivity ].
    exists r. split; [ reflexivity | ]. split; [ exact Hst | ].
    exists d. split; [ exact Hj | ]. split; [ exact Hflag | ].
    right. exists pu. split; [ exact Hpv | ]. unfold flag. rewrite Hrv. reflexivity.
Qed.

(** The gate leaves [sys.path] alone and appends to the log what it
    appends when run on an empty one. *)
Lemma validate_frame key cfg w s :
  validate_license_key key cfg w s =
    (fst (validate_license_key key cfg w (PState [] [])),
     PState (sys_path s)
       (log s ++ log (snd (validate_license_key key cfg w (PState [] []))))) /\
  Forall own_event (log (snd (validate_license_key key cfg w (PState [] [])))).
Proof.
  unfold validate_license_key.
  destruct key as [k|]; [ destruct (String.eqb k EmptyString) | ].
  2: {
    destruct (verify_license_run k cfg w) as (v & evs & Hrun & Hshape & _).
    run_m.
    destruct (client_open w) as [[]|e]; cbn [fst snd sys_path log].
    2: { split; [ rewrite <- ?app_assoc; reflexivity | repeat constructor ]. }
    rewrite !Hrun. cbn [fst snd sys_path log].
    assert (Hown : Forall own_event evs).
    { destruct Hshape as [-> | [e ->]]; repeat constructor. }
    destruct (client_close w) as [[]|e]; cbn [fst snd sys_path log];
      (split; [ rewrite <- ?app_assoc; reflexivity | ]);
      repeat first [ apply Forall_nil
                   | exact Hown
                   | apply Forall_cons; [ reflexivity | ]
                   | apply Forall_app; split ]. }
  all: run_m; cbn; split; [ rewrite app_nil_r, pstate_eta; reflexivity | constructor ].
Qed.

Lemma gate_run cfg w s :
  validate_license_key (API_KEY cfg) cfg w s =
    (gate_value cfg w, PState (sys_path s) (log s ++ gate_log cfg w)).
Proof. exact (proj1 (validate_frame (API_KEY cfg) cfg w s)). Qed.

Lemma gate_log_own cfg w : Forall own_event (gate_log cfg w).
Proof. exact (proj2 (validate_frame (API_KEY cfg) cfg w (PState [] []))). Qed.

Lemma gate_log_no_delegation cfg w : delegated (gate_log cfg w) = [].
Proof.
  pose proof (gate_log_own cfg w) as H. induction H as [|ev l Hev _ IH]; [ reflexivity | ].
  cbn. destruct ev as [c|c e]; cbn in Hev; [ rewrite Hev | ]; exact IH.
Qed.


Lemma gate_log_called cfg w c : In (Called c) (gate_log cfg w) -> is_delegation c = false.
Proof.
  intros Hin. pose proof (gate_log_own cfg w) as H.
  rewrite Forall_forall in H. exact (H _ Hin).
Qed.

Lemma gate_missing_key cfg w :
  key_missing (API_KEY cfg) = true ->
  gate_value cfg w = Ret (PBool false) /\ gate_log cfg w = [].
Proof.
  unfold gate_value, gate_log, validate_license_key, key_missing.
  destruct (API_KEY cfg) as [k|]; [ intros -> | intros _ ]; split; reflexivity.
Qed.


(** C3.  For an absent ([None]) or empty credential the gate returns
    [False] at once: the state, and with it the log of outgoing calls,
    is exactly what it was, so no verification request was made. *)
Theorem empty_credential_denied key cfg w s :
  key_missing key = true ->
  validate_license_key key cfg w s = (Ret (PBool false), s) /\
  verifications (log (snd (validate_license_key key cfg w s))) = verifications (log s).
Proof.
  intros H. assert (E : validate_license_key key cfg w s = (Ret (PBool false), s)).
  { unfold validate_license_key. destruct key as [k|]; cbn in H.
    - rewrite H. reflexivity.
    - reflexivity. }
  rewrite E. split; reflexivity.
Qed.

Lemma empty_credential_denied_witness :
  validate_license_key (Some EmptyString) Sample.pro_cfg Sample.licensed (PState [] [])
    = (Ret (PBool false), PState [] []) /\
  validate_license_key None Sample.free_cfg Sample.licensed (PState [] [])
    = (Ret (PBool false), PState [] []).
Proof.
  split.
  - apply (empty_credential_denied (Some EmptyString) Sample.pro_cfg Sample.licensed
             (PState [] [])). reflexivity.
  - apply (empty_credential_denied None Sample.free_cfg Sample.licensed (PState [] [])).
    reflexivity.
Defined.

(** C2 (as amended).  For a non-empty credential whose client is
    built and left without error, the gate makes one verification
    request and returns a value.  The value is truthy, and then it is
    [True] itself, exactly when the request returned a response with
    status 200 whose body is a JSON object with a truthy [success]
    entry and with [purchase] either missing or an object whose
    [refunded] entry is missing or falsy; a request that raises, any
    other status and any other body give a falsy value, and nothing
    that the request or the reading of the body raises leaves the
    gate.  What the gate does when its client cannot be built or left
    is not part of this statement. *)
Theorem license_gate_decision k cfg w s :
  k <> EmptyString ->
  client_open w = Ret tt ->
  client_close w = Ret tt ->
  exists v tail,
    validate_license_key (Some k) cfg w s =
      (Ret v,
       PState (sys_path s)
         (log s ++ Called ClientOpen
            :: Called (LicenseVerify (GUMROAD_PRODUCT_PERMALINK cfg) k) :: tail)) /\
    verifications tail = [] /\
    (truthy v = true <->
       exists r, license_verify w (GUMROAD_PRODUCT_PERMALINK cfg) k = Ret r /\ accepted r) /\
    (truthy v = true -> v = PBool true).
Proof.
  intros Hk Ho Hc. unfold validate_license_key. rewrite (eqb_empty_false k Hk).
  destruct (verify_license_run k cfg w) as (v & evs & Hrun & Hshape & Hiff & Htrue).
  run_m. rewrite Ho. cbn [fst snd sys_path log]. rewrite Hrun. cbn [fst snd sys_path log].
  rewrite Hc. cbn [fst snd sys_path log].
  destruct Hshape as [-> | [e ->]].
  - exists v, [Called ClientClose]. rewrite <- !app_assoc.
    split; [ reflexivity | ]. split; [ reflexivity | ]. split; assumption.
  - exists v, [Raised (LicenseVerify (GUMROAD_PRODUCT_PERMALINK cfg) k) e;
               Called ClientClose].
    rewrite <- !app_assoc.
    split; [ reflexivity | ]. split; [ reflexivity | ]. split; assumption.
Qed.

Lemma license_gate_decision_witness :
  exists v tail,
    validate_license_key (Some "KEY-1234") Sample.pro_cfg Sample.licensed (PState [] []) =
      (Ret v, PState [] (Called ClientOpen
                           :: Called (LicenseVerify "cite-agent-pro" "KEY-1234") :: tail)) /\
    verifications tail = [] /\
    (truthy v = true <->
       exists r, license_verify Sample.licensed "cite-agent-pro" "KEY-1234" = Ret r
                 /\ accepted r) /\
    (truthy v = true -> v = PBool true).
Proof.
  apply (license_gate_decision "KEY-1234" Sample.pro_cfg Sample.licensed (PState [] []));
    [ discriminate | reflexivity | reflexivity ].
Defined.

(** C2 as stated fails: a 201 response is an HTTP success status, its
    body has [success] true and [refunded] false, and the gate still
    answers [False]. *)
Lemma created_status_is_refused :
  spec_entitled (license_verify Sample.created "cite-agent-pro" "KEY-1234") = true /\
  gate_value Sample.pro_cfg Sample.created = Ret (PBool false).
Proof. split; reflexivity. Qed.

(** ** Properties of the dispatcher *)

Lemma entitled_value cfg w v : gate_value cfg w = Ret v -> entitled cfg w = Some (truthy v).
Proof. intros H. unfold entitled. rewrite H. reflexivity. Qed.

Lemma entitled_some cfg w b :
  entitled cfg w = Some b -> exists v, gate_value cfg w = Ret v /\ truthy v = b.
Proof.
  unfold entitled. destruct (gate_value cfg w) as [v|e]; [ | discriminate ].
  intros H. injection H as <-. exists v. split; reflexivity.
Qed.

(** [call_tool] after the gate has run. *)
Lemma call_tool_unfold name args cfg w s :
  call_tool name args cfg w s =
    match gate_value cfg w with
    | Ret v =>
        if negb (String.eqb name "search_papers") && negb (truthy v) then
          (Ret (text_content (locked_notice (GUMROAD_PRODUCT_PERMALINK cfg) name)),
           PState (sys_path s) (log s ++ gate_log cfg w))
        else
          try_except (dispatch name v args)
            (fun e => ret (text_content (system_error e)))
            cfg w (PState (sys_path s) (log s ++ gate_log cfg w))
    | Raise e => (Raise e, PState (sys_path s) (log s ++ gate_log cfg w))
    end.
Proof.
  unfold call_tool. unfold bind at 1. unfold ask at 1. cbn beta iota.
  unfold bind at 1. rewrite gate_run.
  destruct (gate_value cfg w) as [v|e]; [ | reflexivity ].
  destruct (negb (String.eqb name "search_papers") && negb (truthy v)); reflexivity.
Qed.

Lemma contains_here s post : contains (s ++ post) s.
Proof. exists EmptyString, post. reflexivity. Qed.

Lemma append_assoc' (a b c : string) : (a ++ b) ++ c = a ++ b ++ c.
Proof. induction a as [|x a IH]; cbn; [ reflexivity | rewrite IH; reflexivity ]. Qed.

Lemma contains_skip a s sub : contains s sub -> contains (a ++ s) sub.
Proof.
  intros (pre & post & ->). exists (a ++ pre), post.
  rewrite append_assoc'. reflexivity.
Qed.

Lemma contains_mid a s b : contains (a ++ s ++ b) s.
Proof. apply contains_skip, contains_here. Qed.

Lemma contains_end a s : contains (a ++ s) s.
Proof.
  exists a, EmptyString. f_equal.
  induction s as [|x s IH]; cbn; [ reflexivity | rewrite <- IH; reflexivity ].
Qed.

Lemma locked_notice_upgrade permalink name :
  contains (locked_notice permalink name) "requires a Cite-Agent Pro license".
Proof.
  unfold locked_notice. do 5 apply contains_skip.
  exists "' ", ("." ++ nl ++ nl ++
    "👉 **Get your key here:** https://gumroad.com/l/" ++ permalink ++ nl ++ nl ++
    "Set the CITE_AGENT_API_KEY environment variable to unlock.").
  reflexivity.
Qed.

Lemma locked_notice_link permalink name :
  contains (locked_notice permalink name) ("https://gumroad.com/l/" ++ permalink).
Proof.
  unfold locked_notice. do 8 apply contains_skip.
  exists "👉 **Get your key here:** ",
    (nl ++ nl ++ "Set the CITE_AGENT_API_KEY environment variable to unlock.").
  reflexivity.
Qed.

Lemma locked_notice_name permalink name : contains (locked_notice permalink name) name.
Proof. unfold locked_notice. do 4 apply contains_skip. apply contains_here. Qed.

Lemma delegated_app l1 l2 : delegated (l1 ++ l2) = (delegated l1 ++ delegated l2)%list.
Proof. unfold delegated. apply flat_map_app. Qed.

Lemma verifications_app l1 l2 :
  verifications (l1 ++ l2) = (verifications l1 ++ verifications l2)%list.
Proof. unfold verifications. apply flat_map_app. Qed.

Lemma invoke_unfold cfg w p name args :
  invoke cfg w p name args =
    (fst (call_tool name args cfg w (PState p [])),
     log (snd (call_tool name args cfg w (PState p []))),
     sys_path (snd (call_tool name args cfg w (PState p [])))).
Proof. unfold invoke. destruct (call_tool name args cfg w (PState p [])); reflexivity. Qed.

(** What an invocation does when the gate closes. *)
Lemma invoke_locked cfg w p name args :
  name <> "search_papers" -> entitled cfg w = Some false ->
  invoke cfg w p name args =
    (Ret (text_content (locked_notice (GUMROAD_PRODUCT_PERMALINK cfg) name)),
     gate_log cfg w, p).
Proof.
  intros Hn He. rewrite invoke_unfold, call_tool_unfold.
  destruct (entitled_some _ _ _ He) as (v & -> & Hv). rewrite Hv.
  apply String.eqb_neq in Hn. rewrite Hn. reflexivity.
Qed.

(** What an invocation does when the gate opens. *)
Lemma invoke_open cfg w p name args b :
  entitled cfg w = Some b ->
  name = "search_papers" \/ b = true ->
  exists v,
    gate_value cfg w = Ret v /\ truthy v = b /\
    call_tool name args cfg w (PState p []) =
      try_except (dispatch name v args)
        (fun e => ret (text_content (system_error e)))
        cfg w (PState p (gate_log cfg w)).
Proof.
  intros He H. destruct (entitled_some _ _ _ He) as (v & Hv & Hb).
  exists v. split; [ exact Hv | ]. split; [ exact Hb | ].
  rewrite call_tool_unfold, Hv, Hb.
  destruct H as [-> | ->]; cbn; [ reflexivity | ].
  rewrite andb_false_r. reflexivity.
Qed.

(** What an invocation does when the gate raises. *)
Lemma invoke_raised cfg w p name args e :
  gate_value cfg w = Raise e ->
  invoke cfg w p name args = (Raise e, gate_log cfg w, p).
Proof. intros He. rewrite invoke_unfold, call_tool_unfold, He. reflexivity. Qed.

(** C1.  Whatever the name, as long as it is not [search_papers]: when
    the gate's answer is falsy the invocation returns the locked
    notice, which holds the upgrade sentence and the purchase link for
    the configured product, and its log has no call to a subprocess,
    an HTTP backend or a library. *)
Theorem paid_tool_locked cfg w p name args :
  name <> "search_papers" -> entitled cfg w = Some false ->
  exists t,
    result_of (invoke cfg w p name args) = Ret [t] /\
    is_locked_notice [t] = true /\
    text t = locked_notice (GUMROAD_PRODUCT_PERMALINK cfg) name /\
    contains (text t) "requires a Cite-Agent Pro license" /\
    contains (text t) ("https://gumroad.com/l/" ++ GUMROAD_PRODUCT_PERMALINK cfg) /\
    delegated (log_of (invoke cfg w p name args)) = [].
Proof.
  intros Hn He. rewrite (invoke_locked cfg w p name args Hn He).
  eexists. split; [ reflexivity | ]. cbn [text].
  split; [ reflexivity | ]. split; [ reflexivity | ].
  split; [ apply locked_notice_upgrade | ].
  split; [ apply locked_notice_link | ].
  apply gate_log_no_delegation.
Qed.

Lemma paid_tool_locked_witness :
  exists t,
    result_of (invoke Sample.free_cfg Sample.licensed [] "verify_citation"
                 [("citation", PStr "Vaswani 2017")]) = Ret [t] /\
    is_locked_notice [t] = true /\
    text t = locked_notice "cite-agent-pro" "verify_citation" /\
    contains (text t) "requires a Cite-Agent Pro license" /\
    contains (text t) "https://gumroad.com/l/cite-agent-pro" /\
    delegated (log_of (invoke Sample.free_cfg Sample.licensed [] "verify_citation"
                         [("citation", PStr "Vaswani 2017")])) = [].
Proof.
  apply (paid_tool_locked Sample.free_cfg Sample.licensed [] "verify_citation"
           [("citation", PStr "Vaswani 2017")]).
  - discriminate.
  - reflexivity.
Defined.

Lemma outside_catalog name :
  ~ In name catalog ->
  String.eqb name "search_papers" = false /\
  String.eqb name "research_deep_dive" = false /\
  String.eqb name "get_zotero_papers" = false /\
  String.eqb name "read_arxiv_pdf" = false /\
  String.eqb name "verify_citation" = false /\
  String.eqb name "get_financial_data" = false.
Proof.
  intros H. repeat split; apply String.eqb_neq; intros ->; apply H; cbn; tauto.
Qed.

Lemma system_error_notice e :
  is_error_notice (text_content (system_error e)) = true /\
  contains (system_error e) (exn_msg e).
Proof. split; [ reflexivity | apply contains_end ]. Qed.

Lemma unknown_tool_text name :
  contains (system_error (Exn "ValueError" ("Unknown tool: " ++ name))) name.
Proof. unfold system_error. cbn [exn_msg]. apply contains_skip, contains_end. Qed.

(** C5 (as amended).  A name outside the catalog never reaches a
    collaborator and, the gate having answered, always comes back in
    the text of the result: in the error notice [System Error: Unknown
    tool: <name>] when the caller is entitled, in the locked notice
    when not. *)
Theorem unknown_tool_named cfg w p name args b :
  ~ In name catalog ->
  entitled cfg w = Some b ->
  exists t,
    result_of (invoke cfg w p name args) = Ret [t] /\
    contains (text t) name /\
    delegated (log_of (invoke cfg w p name args)) = [] /\
    (b = true ->
       text t = system_error (Exn "ValueError" ("Unknown tool: " ++ name)) /\
       is_error_notice [t] = true) /\
    (b = false ->
       text t = locked_notice (GUMROAD_PRODUCT_PERMALINK cfg) name /\
       is_locked_notice [t] = true /\ is_error_notice [t] = false).
Proof.
  intros Hout He.
  destruct (outside_catalog name Hout) as (H1 & H2 & H3 & H4 & H5 & H6).
  destruct b.
  - destruct (invoke_open cfg w p name args true He (or_intror eq_refl))
      as (v & Hv & _ & Hrun).
    rewrite invoke_unfold, Hrun.
    unfold try_except, dispatch. rewrite H1, H2, H3, H4, H5, H6.
    cbn. eexists. split; [ reflexivity | ]. cbn [text].
    split; [ exact (unknown_tool_text name) | ].
    split; [ apply gate_log_no_delegation | ].
    split; [ intros _; split; reflexivity | discriminate ].
  - assert (Hn : name <> "search_papers") by (apply String.eqb_neq; exact H1).
    rewrite (invoke_locked cfg w p name args Hn He).
    eexists. split; [ reflexivity | ]. cbn [text].
    split; [ apply locked_notice_name | ].
    split; [ apply gate_log_no_delegation | ].
    split; [ discriminate | intros _; repeat split ].
Qed.

Lemma unknown_tool_named_witness :
  exists t,
    result_of (invoke Sample.pro_cfg Sample.licensed [] "summarise" []) = Ret [t] /\
    contains (text t) "summarise" /\
    delegated (log_of (invoke Sample.pro_cfg Sample.licensed [] "summarise" [])) = [] /\
    (true = true ->
       text t = system_error (Exn "ValueError" ("Unknown tool: " ++ "summarise")) /\
       is_error_notice [t] = true) /\
    (true = false ->
       text t = locked_notice "cite-agent-pro" "summarise" /\
       is_locked_notice [t] = true /\ is_error_notice [t] = false).
Proof.
  apply (unknown_tool_named Sample.pro_cfg Sample.licensed [] "summarise" [] true).
  - cbn. intuition discriminate.
  - reflexivity.
Defined.

(** C5 as stated fails: without a license an unknown name gets the
    locked notice, which is not an error result. *)
Lemma unknown_tool_unlicensed_is_locked :
  ~ In "summarise" catalog /\
  result_of (invoke Sample.free_cfg Sample.licensed [] "summarise" [])
    = Ret (text_content (locked_notice "cite-agent-pro" "summarise")) /\
  is_error_notice (text_content (locked_notice "cite-agent-pro" "summarise")) = false.
Proof. split; [ cbn; intuition discriminate | split; reflexivity ]. Qed.
(** *** Steady computations *)

Section Steady.
Variable P : world -> Prop.

Lemma steady_ret {A} (a : A) : steady P (ret a).
Proof.
  intros cfg w p _. exists (Ret a), []. split; [ | split ].
  - intros l. unfold ret. rewrite app_nil_r. reflexivity.
  - intros c e [].
  - reflexivity.
Qed.

Lemma steady_lift {A} (o : outcome A) : steady P (lift o).
Proof.
  intros cfg w p _. exists o, []. split; [ | split ].
  - intros l. unfold lift. rewrite app_nil_r. reflexivity.
  - intros c e [].
  - reflexivity.
Qed.

Lemma steady_raise {A} (e : exn) : steady P (@raise A e).
Proof. exact (steady_lift (Raise e)). Qed.

Lemma steady_ask : steady P ask.
Proof.
  intros cfg w p _. exists (Ret cfg), []. split; [ | split ].
  - intros l. unfold ask. rewrite app_nil_r. reflexivity.
  - intros c e [].
  - reflexivity.
Qed.

Lemma steady_get_sys_path : steady P get_sys_path.
Proof.
  intros cfg w p _. exists (Ret p), []. split; [ | split ].
  - intros l. unfold get_sys_path. rewrite app_nil_r. reflexivity.
  - intros c e [].
  - reflexivity.
Qed.

Lemma steady_getitem args k : steady P (getitem args k).
Proof.
  intros cfg w p _. exists (subscript (isprintable cfg) args k), []. split; [ | split ].
  - intros l. unfold getitem. rewrite app_nil_r. reflexivity.
  - intros c e [].
  - reflexivity.
Qed.

Lemma steady_fstr v : steady P (fstr v).
Proof.
  intros cfg w p _. exists (py_str (isprintable cfg) v), []. split; [ | split ].
  - intros l. unfold fstr. rewrite app_nil_r. reflexivity.
  - intros c e [].
  - reflexivity.
Qed.

Lemma steady_perform {A} (c : call) (f : world -> outcome A) :
  is_delegation c = true -> steady P (perform c f).
Proof.
  intros Hc cfg w p _. unfold perform, record. cbn [sys_path log].
  destruct (f w) as [a|e].
  - exists (Ret a), [Called c]. split; [ reflexivity | split ].
    + intros c' e' [H | []]. discriminate H.
    + destruct c; try reflexivity. discriminate Hc.
  - exists (Raise e), [Called c; Raised c e]. split; [ | split ].
    + intros l. rewrite <- app_assoc. reflexivity.
    + intros c' e' [H | [H | []]]; [ discriminate H | ].
      injection H as _ ->. reflexivity.
    + destruct c; try reflexivity. discriminate Hc.
Qed.

Lemma steady_bind {A B} (m : M A) (k : A -> M B) :
  steady P m -> (forall a, steady P (k a)) -> steady P (bind m k).
Proof.
  intros Hm Hk cfg w p Hw.
  destruct (Hm cfg w p Hw) as (o & evs & Hrun & Htr & Hver).
  destruct o as [a|e].
  - destruct (Hk a cfg w p Hw) as (o2 & evs2 & Hrun2 & Htr2 & Hver2).
    exists o2, (evs ++ evs2)%list. split; [ | split ].
    + intros l. unfold bind. rewrite Hrun, Hrun2. rewrite app_assoc. reflexivity.
    + intros c e Hin. apply in_app_or in Hin. destruct Hin as [Hin | Hin].
      * specialize (Htr _ _ Hin). discriminate Htr.
      * exact (Htr2 _ _ Hin).
    + rewrite verifications_app, Hver, Hver2. reflexivity.
  - exists (Raise e), evs. split; [ | split ].
    + intros l. unfold bind. rewrite Hrun. reflexivity.
    + intros c e' Hin. specialize (Htr _ _ Hin). injection Htr as ->. reflexivity.
    + exact Hver.
Qed.

Lemma steady_extract_pages data pages acc : steady P (extract_pages data pages acc).
Proof.
  revert acc. induction pages as [|i rest IH]; intros acc; cbn [extract_pages].
  - apply steady_ret.
  - apply steady_bind; [ apply steady_perform; reflexivity | intros t; apply IH ].
Qed.

(** Where a client can be built and left, an [async with] block adds
    the two ends of the client's life to what its body does. *)
Lemma with_client_calm {A} (m : M A) cfg w s :
  calm w ->
  with_client m cfg w s =
    (fst (m cfg w (PState (sys_path s) (log s ++ [Called ClientOpen]))),
     PState (sys_path (snd (m cfg w (PState (sys_path s) (log s ++ [Called ClientOpen])))))
       (log (snd (m cfg w (PState (sys_path s) (log s ++ [Called ClientOpen]))))
          ++ [Called ClientClose])).
Proof.
  intros [Ho Hc]. unfold with_client, bind, perform, record. rewrite Ho, Hc.
  cbn [sys_path log].
  destruct (m cfg w (PState (sys_path s) (log s ++ [Called ClientOpen]))) as [[a|e] s1];
    reflexivity.
Qed.

Lemma steady_with_client {A} (m : M A) :
  (forall w, P w -> calm w) -> steady P m -> steady P (with_client m).
Proof.
  intros Hcalm Hm cfg w p Hw.
  destruct (Hm cfg w p Hw) as (o & evs & Hrun & Htr & Hver).
  exists o, (Called ClientOpen :: evs ++ [Called ClientClose])%list.
  split; [ | split ].
  - intros l. rewrite (with_client_calm m cfg w _ (Hcalm w Hw)). cbn [sys_path log].
    rewrite Hrun. cbn [fst snd sys_path log].
    rewrite <- !app_assoc. reflexivity.
  - intros c e [H | Hin]; [ discriminate H | ].
    apply in_app_or in Hin. destruct Hin as [Hin | [H | []]]; [ | discriminate H ].
    exact (Htr _ _ Hin).
  - cbn [verifications flat_map app]. fold (verifications (evs ++ [Called ClientClose])).
    rewrite verifications_app, Hver. reflexivity.
Qed.

End Steady.

Lemma steady_weaken {A} (P Q : world -> Prop) (m : M A) :
  (forall w, Q w -> P w) -> steady P m -> steady Q m.
Proof. intros HPQ Hm cfg w p Hw. exact (Hm cfg w p (HPQ w Hw)). Qed.

Ltac steady_step :=
  first
    [ apply steady_ret
    | apply steady_lift
    | apply steady_ask
    | apply steady_get_sys_path
    | apply steady_getitem
    | apply steady_fstr
    | apply steady_raise
    | apply steady_extract_pages
    | apply steady_perform; reflexivity
    | apply steady_with_client; [ intros ? H; exact H | ]
    | apply steady_bind; [ | intro ]
    | match goal with
      | |- steady _ (if ?b then _ else _) => destruct b
      end ].

Ltac steady_tac := repeat steady_step.

Lemma steady_search_papers P v args : steady P (search_papers v args).
Proof. unfold search_papers, run_cli. steady_tac. Qed.

Lemma steady_agent_session P path args : steady P (agent_session path args).
Proof. unfold agent_session. steady_tac. Qed.

Lemma steady_zotero_session P args : steady P (zotero_session args).
Proof. unfold zotero_session. steady_tac. Qed.


Lemma steady_read_arxiv_pdf args : steady calm (read_arxiv_pdf args).
Proof. unfold read_arxiv_pdf. steady_tac. Qed.

Lemma steady_verify_citation P v : steady P (verify_citation v).
Proof. unfold verify_citation, run_cli. steady_tac. Qed.

Lemma steady_get_financial_data P args : steady P (get_financial_data args).
Proof. unfold get_financial_data, run_cli. steady_tac. Qed.

(** *** Settled handlers *)

Lemma effective_idem core p : effective core (effective core p) = effective core p.
Proof.
  unfold effective. destruct (existsb (String.eqb core) p) eqn:E.
  - rewrite E. reflexivity.
  - cbn [existsb]. rewrite String.eqb_refl. reflexivity.
Qed.

Lemma effective_has_core core p : In core (effective core p).
Proof.
  unfold effective. destruct (existsb (String.eqb core) p) eqn:E.
  - apply existsb_exists in E. destruct E as (x & Hx & Heq).
    apply String.eqb_eq in Heq. subst x. exact Hx.
  - left. reflexivity.
Qed.

Lemma settled_of_steady P (m : M (list TextContent)) : steady P m -> settled P m.
Proof.
  intros Hm cfg w p Hw. destruct (Hm cfg w p Hw) as (o & evs & Hrun & Htr & Hver).
  exists o, evs, p. split; [ exact Hrun | ]. split; [ left; reflexivity | ].
  split; [ | exact Hver ].
  intros c e Hin. left. exact (Htr _ _ Hin).
Qed.

Lemma try_except_ret {A} (m : M A) (h : exn -> A) cfg w s :
  try_except m (fun e => ret (h e)) cfg w s =
    (match fst (m cfg w s) with Ret a => Ret a | Raise e => Ret (h e) end,
     snd (m cfg w s)).
Proof.
  unfold try_except, ret. destruct (m cfg w s) as [[a|e] s']; reflexivity.
Qed.

Lemma settled_try P (m : M (list TextContent)) (f : exn -> string) :
  steady P m ->
  (forall e, is_error_notice (text_content (f e)) = true /\ contains (f e) (exn_msg e)) ->
  settled P (try_except m (fun e => ret (text_content (f e)))).
Proof.
  intros Hm Hf cfg w p Hw. destruct (Hm cfg w p Hw) as (o & evs & Hrun & Htr & Hver).
  exists (match o with Ret a => Ret a | Raise e => Ret (text_content (f e)) end), evs, p.
  split; [ | split; [ left; reflexivity | split; [ | exact Hver ] ] ].
  - intros l. rewrite try_except_ret, Hrun. reflexivity.
  - intros c e Hin. right. rewrite (Htr _ _ Hin).
    exists (mkTextContent "text" (f e)). split; [ reflexivity | ]. exact (Hf e).
Qed.

Lemma integration_error_notice e :
  is_error_notice (text_content (integration_error e)) = true /\
  contains (integration_error e) (exn_msg e).
Proof. split; [ reflexivity | apply contains_end ]. Qed.

Lemma zotero_error_notice e :
  is_error_notice (text_content (zotero_error e)) = true /\
  contains (zotero_error e) (exn_msg e).
Proof. split; [ reflexivity | apply contains_mid ]. Qed.

(** The deep-dive handler first brings [sys.path] to its effective
    value and then talks to the agent under that path. *)
Lemma research_deep_dive_run args cfg w s :
  research_deep_dive args cfg w s =
    try_except (agent_session (effective (core_path cfg) (sys_path s)) args)
      (fun e => ret (text_content (integration_error e)))
      cfg w (PState (effective (core_path cfg) (sys_path s)) (log s)).
Proof.
  unfold research_deep_dive, try_except, ensure_core_path, effective.
  unfold bind at 1. unfold bind at 1. unfold ask at 1. cbn beta iota.
  unfold bind at 1. unfold get_sys_path at 1. cbn beta iota.
  destruct (existsb (String.eqb (core_path cfg)) (sys_path s)).
  - unfold ret at 1. unfold bind at 1. unfold get_sys_path at 1. cbn beta iota.
    rewrite pstate_eta. reflexivity.
  - unfold set_sys_path at 1. unfold bind at 1. unfold get_sys_path at 1. reflexivity.
Qed.

Lemma settled_research_deep_dive P args : settled P (research_deep_dive args).
Proof.
  intros cfg w p Hw.
  destruct (steady_agent_session P (effective (core_path cfg) p) args cfg w
              (effective (core_path cfg) p) Hw)
    as (o & evs & Hrun & Htr & Hver).
  exists (match o with
          | Ret a => Ret a
          | Raise e => Ret (text_content (integration_error e))
          end), evs, (effective (core_path cfg) p).
  split; [ | split; [ right; reflexivity | split; [ | exact Hver ] ] ].
  - intros l. rewrite research_deep_dive_run, try_except_ret.
    cbn [sys_path log]. rewrite Hrun. reflexivity.
  - intros c e Hin. right. rewrite (Htr _ _ Hin).
    exists (mkTextContent "text" (integration_error e)).
    split; [ reflexivity | ]. exact (integration_error_notice e).
Qed.

(** A gate that returned a truthy value has built and left its
    client. *)
Lemma gate_granted_calm cfg w v :
  gate_value cfg w = Ret v -> truthy v = true -> calm w.
Proof.
  unfold gate_value, validate_license_key.
  destruct (API_KEY cfg) as [k|]; [ destruct (String.eqb k EmptyString) | ].
  2: { destruct (verify_license_run k cfg w) as (v' & evs & Hrun & _).
       run_m. unfold calm.
       destruct (client_open w) as [[]|e]; cbn [fst snd sys_path log];
         [ | discriminate ].
       rewrite Hrun. cbn [fst snd sys_path log].
       destruct (client_close w) as [[]|e]; cbn [fst snd sys_path log];
         [ | discriminate ].
       intros _ _. split; reflexivity. }
  all: run_m; intros H; injection H as <-; discriminate.
Qed.

Lemma settled_dispatch name v args : settled (reachable name) (dispatch name v args).
Proof.
  unfold dispatch.
  destruct (String.eqb_spec name "search_papers") as [Hs | Hs];
    [ apply settled_of_steady, steady_search_papers | ].
  destruct (String.eqb name "research_deep_dive");
    [ apply settled_research_deep_dive | ].
  destruct (String.eqb name "get_zotero_papers");
    [ apply (settled_try _ _ zotero_error);
      [ apply steady_zotero_session | exact zotero_error_notice ] | ].
  destruct (String.eqb name "read_arxiv_pdf").
  { apply settled_of_steady. apply (steady_weaken calm); [ | apply steady_read_arxiv_pdf ].
    intros w [H | H]; [ contradiction | exact H ]. }
  destruct (String.eqb name "verify_citation");
    [ apply settled_of_steady, steady_verify_citation | ].
  destruct (String.eqb name "get_financial_data");
    [ apply settled_of_steady, steady_get_financial_data | ].
  apply settled_of_steady, steady_raise.
Qed.

(** The whole dispatcher.  Its log is the gate's part followed by the
    handler's; [sys.path] is left as it was or brought to its
    effective value; when the gate returns a value so does the
    dispatcher, and when the gate raises the dispatcher raises the
    same and no handler runs; an exception logged by a handler is
    reported in the result; the gate's request is the only one to the
    license endpoint. *)
Lemma invoke_settled cfg w p name args :
  exists o evs p',
    invoke cfg w p name args = (o, (gate_log cfg w ++ evs)%list, p') /\
    (p' = p \/ p' = effective (core_path cfg) p) /\
    match gate_value cfg w with
    | Ret _ => exists r, o = Ret r
    | Raise e => o = Raise e /\ evs = []
    end /\
    (forall c e, In (Raised c e) evs -> reported e o) /\
    verifications evs = [].
Proof.
  rewrite invoke_unfold, call_tool_unfold.
  destruct (gate_value cfg w) as [v|e] eqn:Hv.
  2: { exists (Raise e), [], p. cbn [fst snd sys_path log app].
       rewrite app_nil_r. split; [ reflexivity | ]. split; [ left; reflexivity | ].
       split; [ split; reflexivity | ]. split; [ intros c e' [] | reflexivity ]. }
  destruct (negb (String.eqb name "search_papers") && negb (truthy v)) eqn:Hgate.
  - exists (Ret (text_content (locked_notice (GUMROAD_PRODUCT_PERMALINK cfg) name))), [], p.
    cbn [fst snd sys_path log app]. rewrite app_nil_r.
    split; [ reflexivity | ]. split; [ left; reflexivity | ].
    split; [ eexists; reflexivity | ]. split; [ intros c e' [] | reflexivity ].
  - assert (Hw : reachable name w).
    { apply andb_false_iff in Hgate. destruct Hgate as [Hn | Ht].
      - left. apply negb_false_iff, String.eqb_eq in Hn. exact Hn.
      - right. apply negb_false_iff in Ht. exact (gate_granted_calm cfg w v Hv Ht). }
    destruct (settled_dispatch name v args cfg w p Hw)
      as (o & evs & p' & Hrun & Hp & Htr & Hver).
    exists (match o with Ret a => Ret a | Raise e => Ret (text_content (system_error e)) end),
      evs, p'.
    rewrite try_except_ret, Hrun. cbn [fst snd sys_path log app].
    split; [ reflexivity | ]. split; [ exact Hp | ].
    split; [ destruct o; eexists; reflexivity | ]. split; [ | exact Hver ].
    intros c e Hin. destruct (Htr _ _ Hin) as [-> | (t & -> & Ht)].
    + exists (mkTextContent "text" (system_error e)).
      split; [ reflexivity | ]. exact (system_error_notice e).
    + exists t. split; [ reflexivity | exact Ht ].
Qed.

(** *** The tools that shell out *)

Ltac cli_done :=
  cbn [fst snd sys_path log];
  rewrite <- ?app_assoc; rewrite ?delegated_app, ?gate_log_no_delegation;
  split; reflexivity.

(** [search_papers] follows its plan. *)
Lemma search_runs_plan cfg w p args b :
  entitled cfg w = Some b ->
  result_of (invoke cfg w p "search_papers" args)
    = Ret (fst (cli_outcome w (search_plan cfg b args))) /\
  delegated (log_of (invoke cfg w p "search_papers" args))
    = snd (cli_outcome w (search_plan cfg b args)).
Proof.
  intros He.
  destruct (invoke_open cfg w p "search_papers" args b He (or_introl eq_refl))
    as (v & Hv & Hb & Hrun).
  rewrite invoke_unfold, Hrun, try_except_ret.
  unfold result_of, log_of. cbn [fst snd].
  unfold dispatch. cbn [String.eqb Ascii.eqb Bool.eqb].
  unfold search_papers, search_plan, effective_count, requested_count, cli_outcome,
    cli_result, run_cli, obind.
  run_m. cbn [get_method]. rewrite Hb.
  destruct (subscript (isprintable cfg) args "query") as [q|e]; [ | cli_done ].
  destruct b; cbn [negb fst snd sys_path log].
  - destruct (py_str (isprintable cfg) q) as [tq|e]; [ | cli_done ].
    cbn [fst snd sys_path log].
    destruct (py_str (isprintable cfg) _) as [tc|e]; [ | cli_done ].
    cbn [fst snd sys_path log].
    destruct (subprocess_run w _); cli_done.
  - destruct (py_min _ 5) as [c|e]; [ | cli_done ].
    cbn [fst snd sys_path log].
    destruct (py_str (isprintable cfg) q) as [tq|e]; [ | cli_done ].
    cbn [fst snd sys_path log].
    destruct (py_str (isprintable cfg) c) as [tc|e]; [ | cli_done ].
    cbn [fst snd sys_path log].
    destruct (subprocess_run w _); cli_done.
Qed.

Lemma verify_runs_plan cfg w p args :
  entitled cfg w = Some true ->
  result_of (invoke cfg w p "verify_citation" args)
    = Ret (fst (cli_outcome w (verify_plan cfg args))) /\
  delegated (log_of (invoke cfg w p "verify_citation" args))
    = snd (cli_outcome w (verify_plan cfg args)).
Proof.
  intros He.
  destruct (invoke_open cfg w p "verify_citation" args true He (or_intror eq_refl))
    as (v & Hv & Hb & Hrun).
  rewrite invoke_unfold, Hrun, try_except_ret.
  unfold result_of, log_of. cbn [fst snd].
  unfold dispatch. cbn [String.eqb Ascii.eqb Bool.eqb].
  unfold verify_citation, verify_plan, cli_outcome, cli_result, run_cli, obind.
  run_m.
  destruct (subscript (isprintable cfg) args "citation") as [c|e]; [ | cli_done ].
  cbn [fst snd sys_path log].
  destruct (py_str (isprintable cfg) c) as [tc|e]; [ | cli_done ].
  cbn [fst snd sys_path log].
  destruct (subprocess_run w _); cli_done.
Qed.

Lemma financial_runs_plan cfg w p args :
  entitled cfg w = Some true ->
  result_of (invoke cfg w p "get_financial_data" args)
    = Ret (fst (cli_outcome w (financial_plan cfg args))) /\
  delegated (log_of (invoke cfg w p "get_financial_data" args))
    = snd (cli_outcome w (financial_plan cfg args)).
Proof.
  intros He.
  destruct (invoke_open cfg w p "get_financial_data" args true He (or_intror eq_refl))
    as (v & Hv & Hb & Hrun).
  rewrite invoke_unfold, Hrun, try_except_ret.
  unfold result_of, log_of. cbn [fst snd].
  unfold dispatch. cbn [String.eqb Ascii.eqb Bool.eqb].
  unfold get_financial_data, financial_plan, cli_outcome, cli_result, run_cli, obind.
  run_m.
  destruct (subscript (isprintable cfg) args "query") as [q|e]; [ | cli_done ].
  cbn [fst snd sys_path log].
  destruct (subprocess_run w _); cli_done.
Qed.

Lemma str_int_small n : Z.abs n < int_str_bound -> str_int n = Ret (decimal n).
Proof. intros H. unfold str_int. apply Z.ltb_lt in H. rewrite H. reflexivity. Qed.

Lemma str_int_large n : int_str_bound <= Z.abs n -> str_int n = Raise int_str_error.
Proof. intros H. unfold str_int. apply Z.ltb_ge in H. rewrite H. reflexivity. Qed.

Lemma small_bound n : -10 <= n <= 10 -> Z.abs n < int_str_bound.
Proof.
  intros H. assert (Hb : 10 < int_str_bound) by (vm_compute; reflexivity). lia.
Qed.

(** The command of a search whose count is the integer [c]. *)
Lemma search_plan_int cfg (pro : bool) args q topic n c :
  dict_get args "query" = Some q ->
  py_str (isprintable cfg) q = Ret topic ->
  requested_count args = PInt n ->
  c = (if pro then n else if 5 <? n then 5 else n) ->
  search_plan cfg pro args =
    match str_int c with
    | Ret count =>
        Ret [PStr "cite-agent";
             PStr ("Find academic papers on: " ++ topic ++ ". Show " ++ count ++ " results.")]
    | Raise e => Raise e
    end.
Proof.
  intros Hq Ht Hn ->. unfold search_plan, subscript, effective_count, py_min, int_lt, obind.
  rewrite Hq, Hn.
  destruct pro; [ | destruct (5 <? n) ]; cbn [py_str py_repr obind]; rewrite Ht;
    cbn [py_str py_repr]; destruct (str_int _); reflexivity.
Qed.

(** C4.  For [search_papers] with a requested count above 5: without
    entitlement the one command handed to the subprocess asks for
    exactly 5 results; with entitlement a count of at most 10 is
    handed over as requested.  With the credential unset, the query
    [transformer architecture] and [max_results = 20], the command asks
    for 5 results whatever the collaborators answer. *)
Theorem search_count_clamped cfg w p args q topic n :
  dict_get args "query" = Some q ->
  py_str (isprintable cfg) q = Ret topic ->
  dict_get args "max_results" = Some (PInt n) ->
  5 < n ->
  (entitled cfg w = Some false ->
     delegated (log_of (invoke cfg w p "search_papers" args))
       = [SubprocessRun
            [PStr "cite-agent";
             PStr ("Find academic papers on: " ++ topic ++ ". Show 5 results.")]]) /\
  (entitled cfg w = Some true -> n <= 10 ->
     delegated (log_of (invoke cfg w p "search_papers" args))
       = [SubprocessRun
            [PStr "cite-agent";
             PStr ("Find academic papers on: " ++ topic ++ ". Show "
                     ++ NilZero.string_of_int (Z.to_int n) ++ " results.")]]) /\
  (forall w' p',
     delegated (log_of (invoke Sample.free_cfg w' p' "search_papers"
                          [("query", PStr "transformer architecture");
                           ("max_results", PInt 20)]))
       = [SubprocessRun
            [PStr "cite-agent";
             PStr "Find academic papers on: transformer architecture. Show 5 results."]]).
Proof.
  intros Hq Ht Hm Hn.
  assert (Hreq : requested_count args = PInt n) by (unfold requested_count; rewrite Hm; reflexivity).
  split; [ | split ].
  - intros He. destruct (search_runs_plan cfg w p args false He) as (_ & ->).
    rewrite (search_plan_int cfg false args q topic n 5 Hq Ht Hreq).
    + rewrite (str_int_small 5) by (apply small_bound; lia). reflexivity.
    + apply Z.ltb_lt in Hn. rewrite Hn. reflexivity.
  - intros He Hle. destruct (search_runs_plan cfg w p args true He) as (_ & ->).
    rewrite (search_plan_int cfg true args q topic n n Hq Ht Hreq eq_refl).
    rewrite (str_int_small n) by (apply small_bound; lia). reflexivity.
  - intros w' p'.
    destruct (search_runs_plan Sample.free_cfg w' p'
                [("query", PStr "transformer architecture"); ("max_results", PInt 20)]
                false eq_refl) as (_ & ->).
    rewrite (search_plan_int Sample.free_cfg false
               [("query", PStr "transformer architecture"); ("max_results", PInt 20)]
               (PStr "transformer architecture")
               "transformer architecture" 20 5 eq_refl eq_refl eq_refl eq_refl).
    rewrite (str_int_small 5) by (apply small_bound; lia). reflexivity.
Qed.

Lemma search_count_clamped_witness :
  delegated (log_of (invoke Sample.pro_cfg Sample.created [] "search_papers"
                       [("query", PStr "graph neural networks"); ("max_results", PInt 8)]))
    = [SubprocessRun
         [PStr "cite-agent";
          PStr "Find academic papers on: graph neural networks. Show 5 results."]] /\
  delegated (log_of (invoke Sample.pro_cfg Sample.licensed [] "search_papers"
                       [("query", PStr "graph neural networks"); ("max_results", PInt 8)]))
    = [SubprocessRun
         [PStr "cite-agent";
          PStr "Find academic papers on: graph neural networks. Show 8 results."]].
Proof.
  split.
  - apply (proj1 (search_count_clamped Sample.pro_cfg Sample.created []
                    [("query", PStr "graph neural networks"); ("max_results", PInt 8)]
                    (PStr "graph neural networks") "graph neural networks" 8
                    eq_refl eq_refl eq_refl eq_refl)).
    vm_compute. reflexivity.
  - apply (proj1 (proj2 (search_count_clamped Sample.pro_cfg Sample.licensed []
                    [("query", PStr "graph neural networks"); ("max_results", PInt 8)]
                    (PStr "graph neural networks") "graph neural networks" 8
                    eq_refl eq_refl eq_refl eq_refl))).
    + vm_compute. reflexivity.
    + discriminate.
Defined.

(** C10 (as amended).  With entitlement [search_papers] applies no
    upper bound of its own: the command handed to the subprocess
    carries the requested integer count in decimal, for every count
    that the interpreter can write out, those above 10 included.  A
    count of more than 4300 digits cannot be written into the command:
    the f-string raises, nothing is handed to the subprocess and the
    result is the notice of that [ValueError]. *)
Theorem search_count_unbounded cfg w p args q topic n :
  dict_get args "query" = Some q ->
  py_str (isprintable cfg) q = Ret topic ->
  dict_get args "max_results" = Some (PInt n) ->
  entitled cfg w = Some true ->
  (Z.abs n < 10 ^ 4300 ->
     delegated (log_of (invoke cfg w p "search_papers" args))
       = [SubprocessRun
            [PStr "cite-agent";
             PStr ("Find academic papers on: " ++ topic ++ ". Show "
                     ++ NilZero.string_of_int (Z.to_int n) ++ " results.")]]) /\
  (10 ^ 4300 <= Z.abs n ->
     delegated (log_of (invoke cfg w p "search_papers" args)) = [] /\
     result_of (invoke cfg w p "search_papers" args)
       = Ret (text_content
                "❌ System Error: Exceeds the limit (4300 digits) for integer string conversion; use sys.set_int_max_str_digits() to increase the limit")).
Proof.
  intros Hq Ht Hm He.
  assert (Hreq : requested_count args = PInt n) by (unfold requested_count; rewrite Hm; reflexivity).
  destruct (search_runs_plan cfg w p args true He) as (Hres & Hdel).
  rewrite (search_plan_int cfg true args q topic n n Hq Ht Hreq eq_refl) in Hres, Hdel.
  split; intros Hn.
  - rewrite Hdel, (str_int_small n) by exact Hn. reflexivity.
  - rewrite Hdel, Hres, (str_int_large n) by exact Hn. split; reflexivity.
Qed.

Lemma search_count_unbounded_witness :
  delegated (log_of (invoke Sample.pro_cfg Sample.licensed [] "search_papers"
                       [("query", PStr "protein folding"); ("max_results", PInt 500)]))
    = [SubprocessRun
         [PStr "cite-agent";
          PStr "Find academic papers on: protein folding. Show 500 results."]].
Proof.
  apply (proj1 (search_count_unbounded Sample.pro_cfg Sample.licensed []
                  [("query", PStr "protein folding"); ("max_results", PInt 500)]
                  (PStr "protein folding") "protein folding" 500
                  eq_refl eq_refl eq_refl ltac:(vm_compute; reflexivity))).
  vm_compute. reflexivity.
Defined.

(** C10 as stated fails: an entitled request for a count of 4301
    digits is not forwarded at all. *)
Lemma huge_count_not_forwarded :
  entitled Sample.pro_cfg Sample.licensed = Some true /\
  delegated (log_of (invoke Sample.pro_cfg Sample.licensed [] "search_papers"
                       [("query", PStr "protein folding");
                        ("max_results", PInt (10 ^ 4300))])) = [] /\
  result_of (invoke Sample.pro_cfg Sample.licensed [] "search_papers"
               [("query", PStr "protein folding"); ("max_results", PInt (10 ^ 4300))])
    = Ret (text_content (system_error int_str_error)).
Proof. vm_compute. repeat split. Qed.

(** X1.  Without [max_results] the search asks for 10 results when
    the caller is entitled and for 5 when not. *)
Theorem search_default_count cfg w p args q topic :
  dict_get args "query" = Some q ->
  py_str (isprintable cfg) q = Ret topic ->
  dict_get args "max_results" = None ->
  (entitled cfg w = Some true ->
     delegated (log_of (invoke cfg w p "search_papers" args))
       = [SubprocessRun
            [PStr "cite-agent";
             PStr ("Find academic papers on: " ++ topic ++ ". Show 10 results.")]]) /\
  (entitled cfg w = Some false ->
     delegated (log_of (invoke cfg w p "search_papers" args))
       = [SubprocessRun
            [PStr "cite-agent";
             PStr ("Find academic papers on: " ++ topic ++ ". Show 5 results.")]]).
Proof.
  intros Hq Ht Hm.
  assert (Hreq : requested_count args = PInt 10)
    by (unfold requested_count; rewrite Hm; reflexivity).
  split; intros He.
  - destruct (search_runs_plan cfg w p args true He) as (_ & ->).
    rewrite (search_plan_int cfg true args q topic 10 10 Hq Ht Hreq eq_refl).
    rewrite (str_int_small 10) by (apply small_bound; lia). reflexivity.
  - destruct (search_runs_plan cfg w p args false He) as (_ & ->).
    rewrite (search_plan_int cfg false args q topic 10 5 Hq Ht Hreq eq_refl).
    rewrite (str_int_small 5) by (apply small_bound; lia). reflexivity.
Qed.

Lemma search_default_count_witness :
  delegated (log_of (invoke Sample.pro_cfg Sample.licensed [] "search_papers"
                       [("query", PStr "graph neural networks")]))
    = [SubprocessRun
         [PStr "cite-agent";
          PStr "Find academic papers on: graph neural networks. Show 10 results."]] /\
  delegated (log_of (invoke Sample.free_cfg Sample.licensed [] "search_papers"
                       [("query", PStr "graph neural networks")]))
    = [SubprocessRun
         [PStr "cite-agent";
          PStr "Find academic papers on: graph neural networks. Show 5 results."]].
Proof.
  split.
  - apply (proj1 (search_default_count Sample.pro_cfg Sample.licensed []
                    [("query", PStr "graph neural networks")]
                    (PStr "graph neural networks") "graph neural networks"
                    eq_refl eq_refl eq_refl)).
    vm_compute. reflexivity.
  - apply (proj2 (search_default_count Sample.free_cfg Sample.licensed []
                    [("query", PStr "graph neural networks")]
                    (PStr "graph neural networks") "graph neural networks"
                    eq_refl eq_refl eq_refl)).
    reflexivity.
Defined.

(** X2.  The clamp has no lower end: for a caller who is not
    entitled a count of at most 5, zero and negative counts included,
    reaches the command unchanged, as long as the interpreter can
    write it out (fewer than 4301 digits). *)
Theorem search_small_count_kept cfg w p args q topic n :
  dict_get args "query" = Some q ->
  py_str (isprintable cfg) q = Ret topic ->
  dict_get args "max_results" = Some (PInt n) ->
  entitled cfg w = Some false ->
  - (10 ^ 4300) < n <= 5 ->
  delegated (log_of (invoke cfg w p "search_papers" args))
    = [SubprocessRun
         [PStr "cite-agent";
          PStr ("Find academic papers on: " ++ topic ++ ". Show "
                  ++ NilZero.string_of_int (Z.to_int n) ++ " results.")]].
Proof.
  intros Hq Ht Hm He Hn.
  assert (Hreq : requested_count args = PInt n) by (unfold requested_count; rewrite Hm; reflexivity).
  destruct (search_runs_plan cfg w p args false He) as (_ & ->).
  assert (Hlt : (5 <? n) = false) by (apply Z.ltb_ge; lia).
  rewrite (search_plan_int cfg false args q topic n n Hq Ht Hreq)
    by (rewrite Hlt; reflexivity).
  rewrite (str_int_small n); [ reflexivity | ].
  change (10 ^ 4300) with int_str_bound in Hn.
  assert (Hb : 10 < int_str_bound) by (vm_compute; reflexivity). lia.
Qed.

Lemma search_small_count_kept_witness :
  delegated (log_of (invoke Sample.free_cfg Sample.licensed [] "search_papers"
                       [("query", PStr "graph neural networks");
                        ("max_results", PInt (-3))]))
    = [SubprocessRun
         [PStr "cite-agent";
          PStr "Find academic papers on: graph neural networks. Show -3 results."]].
Proof.
  apply (search_small_count_kept Sample.free_cfg Sample.licensed []
           [("query", PStr "graph neural networks"); ("max_results", PInt (-3))]
           (PStr "graph neural networks") "graph neural networks" (-3));
    [ reflexivity | reflexivity | reflexivity | reflexivity | ].
  split; [ vm_compute; reflexivity | discriminate ].
Defined.

(** X3.  For a caller who is not entitled, a [max_results] that is
    not a number ([None], a string, a list, an object) makes the clamp
    fail: no subprocess is started, and the result is the notice of
    the [TypeError] naming the offending type. *)
Theorem search_count_not_a_number cfg w p args q v :
  dict_get args "query" = Some q ->
  dict_get args "max_results" = Some v ->
  entitled cfg w = Some false ->
  (forall n, v <> PInt n) -> (forall b, v <> PBool b) ->
  result_of (invoke cfg w p "search_papers" args) =
    Ret (text_content
           ("❌ System Error: '<' not supported between instances of 'int' and '"
              ++ type_name v ++ "'")) /\
  delegated (log_of (invoke cfg w p "search_papers" args)) = [].
Proof.
  intros Hq Hm He Hn Hb. destruct (search_runs_plan cfg w p args false He) as (-> & ->).
  unfold search_plan, subscript, effective_count, requested_count, py_min, int_lt, obind.
  rewrite Hq, Hm.
  destruct v as [ | b | n | t | l | d ];
    try (split; reflexivity); [ destruct (Hb b eq_refl) | destruct (Hn n eq_refl) ].
Qed.

Lemma search_count_not_a_number_witness :
  result_of (invoke Sample.free_cfg Sample.licensed [] "search_papers"
               [("query", PStr "graph neural networks"); ("max_results", PStr "20")]) =
    Ret (text_content
           ("❌ System Error: '<' not supported between instances of 'int' and '"
              ++ type_name (PStr "20") ++ "'")) /\
  delegated (log_of (invoke Sample.free_cfg Sample.licensed [] "search_papers"
                       [("query", PStr "graph neural networks");
                        ("max_results", PStr "20")])) = [].
Proof.
  apply (search_count_not_a_number Sample.free_cfg Sample.licensed []
           [("query", PStr "graph neural networks"); ("max_results", PStr "20")]
           (PStr "graph neural networks") (PStr "20"));
    [ reflexivity | reflexivity | reflexivity | discriminate | discriminate ].
Defined.

Lemma delegated_in l c :
  In (Called c) l -> is_delegation c = true -> In c (delegated l).
Proof.
  intros Hin Hc. unfold delegated. apply in_flat_map.
  exists (Called c). split; [ exact Hin | ]. rewrite Hc. left. reflexivity.
Qed.

Lemma cli_outcome_verbatim w plan cmd :
  In (SubprocessRun cmd) (snd (cli_outcome w plan)) ->
  fst (cli_outcome w plan) = cli_result w cmd.
Proof.
  unfold cli_outcome. destruct plan as [c|e]; cbn [fst snd].
  - intros [H | []]. injection H as <-. reflexivity.
  - intros [].
Qed.

(** X4.  The three tools that shell out hand back what the
    subprocess printed, unchanged: whenever such an invocation ran a
    command, its result is that command's standard output, or, if the
    subprocess raised (a timeout, a missing executable), the notice
    with the message of what it raised. *)
Theorem cli_output_verbatim cfg w p name args cmd :
  In name cli_tools ->
  In (Called (SubprocessRun cmd)) (log_of (invoke cfg w p name args)) ->
  result_of (invoke cfg w p name args) = Ret (cli_result w cmd) /\
  (forall out, subprocess_run w cmd = Ret out ->
     result_of (invoke cfg w p name args) = Ret (text_content out)).
Proof.
  intros Hname Hin.
  assert (Hres : result_of (invoke cfg w p name args) = Ret (cli_result w cmd)).
  { destruct (entitled cfg w) as [b|] eqn:He.
    2: { unfold entitled in He. destruct (gate_value cfg w) as [v|e] eqn:Hv;
           [ discriminate He | ].
         rewrite (invoke_raised cfg w p name args e Hv) in Hin.
         apply gate_log_called in Hin. discriminate Hin. }
    apply (fun H => delegated_in _ (SubprocessRun cmd) H eq_refl) in Hin.
    destruct Hname as [<- | [<- | [<- | []]]].
    - destruct (search_runs_plan cfg w p args b He) as (-> & Hd).
      rewrite Hd in Hin. rewrite (cli_outcome_verbatim _ _ _ Hin). reflexivity.
    - destruct b.
      + destruct (verify_runs_plan cfg w p args He) as (-> & Hd).
        rewrite Hd in Hin. rewrite (cli_outcome_verbatim _ _ _ Hin). reflexivity.
      + rewrite invoke_locked in Hin by (discriminate || exact He).
        unfold log_of in Hin. cbn [fst snd] in Hin.
        rewrite gate_log_no_delegation in Hin. destruct Hin.
    - destruct b.
      + destruct (financial_runs_plan cfg w p args He) as (-> & Hd).
        rewrite Hd in Hin. rewrite (cli_outcome_verbatim _ _ _ Hin). reflexivity.
      + rewrite invoke_locked in Hin by (discriminate || exact He).
        unfold log_of in Hin. cbn [fst snd] in Hin.
        rewrite gate_log_no_delegation in Hin. destruct Hin. }
  split; [ exact Hres | ].
  intros out Hout. rewrite Hres. unfold cli_result. rewrite Hout. reflexivity.
Qed.

Lemma cli_output_verbatim_witness :
  result_of (invoke Sample.pro_cfg Sample.licensed [] "get_financial_data"
               [("query", PStr "AAPL Revenue")])
    = Ret (cli_result Sample.licensed [PStr "cite-agent"; PStr "AAPL Revenue"]) /\
  (forall out,
     subprocess_run Sample.licensed [PStr "cite-agent"; PStr "AAPL Revenue"] = Ret out ->
     result_of (invoke Sample.pro_cfg Sample.licensed [] "get_financial_data"
                  [("query", PStr "AAPL Revenue")]) = Ret (text_content out)).
Proof.
  apply (cli_output_verbatim Sample.pro_cfg Sample.licensed [] "get_financial_data"
           [("query", PStr "AAPL Revenue")] [PStr "cite-agent"; PStr "AAPL Revenue"]).
  - cbn. tauto.
  - cbn. do 3 right. left. reflexivity.
Defined.

(** X5.  An entitled [verify_citation] runs one command,
    [cite-agent "Verify this citation: <citation>"], with the citation
    text as it was supplied, and nothing else. *)
Theorem verify_citation_command cfg w p args c :
  entitled cfg w = Some true ->
  dict_get args "citation" = Some (PStr c) ->
  delegated (log_of (invoke cfg w p "verify_citation" args))
    = [SubprocessRun [PStr "cite-agent"; PStr ("Verify this citation: " ++ c)]].
Proof.
  intros He Hc. destruct (verify_runs_plan cfg w p args He) as (_ & ->).
  unfold verify_plan, subscript, obind. rewrite Hc. reflexivity.
Qed.

Lemma verify_citation_command_witness :
  delegated (log_of (invoke Sample.pro_cfg Sample.licensed [] "verify_citation"
                       [("citation", PStr "Vaswani et al. 2017")]))
    = [SubprocessRun [PStr "cite-agent";
                      PStr ("Verify this citation: " ++ "Vaswani et al. 2017")]].
Proof.
  apply (verify_citation_command Sample.pro_cfg Sample.licensed []
           [("citation", PStr "Vaswani et al. 2017")] "Vaswani et al. 2017");
    reflexivity.
Defined.

(** X6.  An entitled [get_financial_data] hands the [query] value to
    the subprocess as its one argument without formatting it: a value
    that is not a string (a number, a list) reaches [subprocess.run] as
    that value, not as its text. *)
Theorem financial_query_raw cfg w p args q :
  entitled cfg w = Some true ->
  dict_get args "query" = Some q ->
  delegated (log_of (invoke cfg w p "get_financial_data" args))
    = [SubprocessRun [PStr "cite-agent"; q]].
Proof.
  intros He Hq. destruct (financial_runs_plan cfg w p args He) as (_ & ->).
  unfold financial_plan, subscript, obind. rewrite Hq. reflexivity.
Qed.

Lemma financial_query_raw_witness :
  delegated (log_of (invoke Sample.pro_cfg Sample.licensed [] "get_financial_data"
                       [("query", PInt 2024)]))
    = [SubprocessRun [PStr "cite-agent"; PInt 2024]].
Proof.
  apply (financial_query_raw Sample.pro_cfg Sample.licensed []
           [("query", PInt 2024)] (PInt 2024)); reflexivity.
Defined.

(** *** Faults and their reports *)

(** C6.  The claim does not hold of the code as written: the gate is
    awaited before the dispatcher's [try] block, and the gate builds
    its client before its own, so with a credential set and a client
    that cannot be built the invocation ends in that exception rather
    than in a result; nothing was delegated and no request was sent. *)
Theorem gate_fault_escapes :
  result_of (invoke Sample.pro_cfg Sample.broken_client [] "search_papers"
               [("query", PStr "causal inference")])
    = Raise (Exn "ImportError"
               "Using SOCKS proxy, but the 'socksio' package is not installed.") /\
  log_of (invoke Sample.pro_cfg Sample.broken_client [] "search_papers"
            [("query", PStr "causal inference")])
    = [Called ClientOpen;
       Raised ClientOpen
         (Exn "ImportError"
            "Using SOCKS proxy, but the 'socksio' package is not installed.")].
Proof. split; reflexivity. Qed.



(** *** The shape of every result *)

Lemma single_ret t : single_text (ret (text_content t)).
Proof. intros cfg w s r H. injection H as <-. exists t. reflexivity. Qed.

Lemma single_bind {A} (m : M A) (k : A -> M (list TextContent)) :
  (forall a, single_text (k a)) -> single_text (bind m k).
Proof.
  intros Hk cfg w s r. unfold bind.
  destruct (m cfg w s) as [[a|e] s']; [ apply Hk | discriminate ].
Qed.

Lemma single_raise e : single_text (raise e).
Proof. intros cfg w s r H. discriminate H. Qed.

Lemma single_try (m : M (list TextContent)) (f : exn -> string) :
  single_text m -> single_text (try_except m (fun e => ret (text_content (f e)))).
Proof.
  intros Hm cfg w s r. rewrite try_except_ret. cbn [fst].
  destruct (fst (m cfg w s)) as [a|e] eqn:E.
  - intros H. injection H as <-. exact (Hm cfg w s a E).
  - intros H. injection H as <-. eexists. reflexivity.
Qed.

Lemma single_with_client (m : M (list TextContent)) :
  single_text m -> single_text (with_client m).
Proof.
  intros Hm cfg w s r. unfold with_client, bind, perform, record.
  destruct (client_open w) as [[]|e]; cbn [fst snd sys_path log]; [ | discriminate ].
  destruct (m cfg w _) as [o s1] eqn:E.
  destruct (client_close w) as [[]|e]; cbn [fst snd sys_path log]; [ | discriminate ].
  intros ->. eapply Hm. rewrite E. reflexivity.
Qed.

Ltac single_tac :=
  repeat first
    [ apply single_ret
    | apply single_raise
    | apply single_try
    | apply single_with_client
    | apply single_bind; intro
    | match goal with
      | |- single_text (if ?b then _ else _) => destruct b
      end ].

Lemma single_dispatch name v args : single_text (dispatch name v args).
Proof.
  unfold dispatch, search_papers, research_deep_dive, agent_session, get_zotero_papers,
    zotero_session, read_arxiv_pdf, arxiv_download, verify_citation, get_financial_data.
  single_tac.
Qed.

(** X16.  Whatever the name, the arguments and the collaborators
    behind the tools do, an invocation in which the gate returns gives
    a list of exactly one item, of type [text]; when the gate raises,
    the invocation ends in that exception. *)
Theorem result_is_one_text cfg w p name args :
  match gate_value cfg w with
  | Ret _ => exists t, result_of (invoke cfg w p name args) = Ret [mkTextContent "text" t]
  | Raise e => result_of (invoke cfg w p name args) = Raise e
  end.
Proof.
  rewrite invoke_unfold, call_tool_unfold. unfold result_of. cbn [fst sys_path log].
  destruct (gate_value cfg w) as [v|e]; [ | reflexivity ].
  destruct (negb (String.eqb name "search_papers") && negb (truthy v)).
  - eexists. reflexivity.
  - destruct (fst (try_except (dispatch name v args)
                     (fun e => ret (text_content (system_error e))) cfg w
                     (PState p ([] ++ gate_log cfg w)))) as [r|e] eqn:E.
    + destruct (single_try _ system_error (single_dispatch name v args) _ _ _ _ E)
        as (t & ->).
      exists t. reflexivity.
    + rewrite try_except_ret in E. cbn [fst] in E.
      destruct (fst (dispatch name v args cfg w _)); discriminate E.
Qed.

(** *** Order and reach of the license traffic *)

(** X17.  In every invocation the license check comes first: the log
    splits into a front part with no call to a tool's collaborator and
    a rest with no call to the license endpoint. *)
Theorem verification_precedes_delegation cfg w p name args :
  exists front rest,
    log_of (invoke cfg w p name args) = (front ++ rest)%list /\
    delegated front = [] /\
    verifications rest = [] /\
    front = gate_log cfg w.
Proof.
  destruct (invoke_settled cfg w p name args) as (o & evs & p' & -> & _ & _ & _ & Hver).
  exists (gate_log cfg w), evs. unfold log_of. cbn [fst snd].
  split; [ reflexivity | ]. split; [ apply gate_log_no_delegation | ].
  split; [ exact Hver | reflexivity ].
Qed.

(** X18.  A server started without a credential (unset or empty)
    never contacts the license endpoint, for any tool and any
    arguments, and counts every caller as not entitled. *)
Theorem unconfigured_server_is_silent cfg w p name args :
  key_missing (API_KEY cfg) = true ->
  verifications (log_of (invoke cfg w p name args)) = [] /\
  entitled cfg w = Some false.
Proof.
  intros Hk. destruct (gate_missing_key cfg w Hk) as (Hv & Hl). split.
  - destruct (invoke_settled cfg w p name args) as (o & evs & p' & -> & _ & _ & _ & Hver).
    unfold log_of. cbn [fst snd].
    rewrite verifications_app, Hver, Hl. reflexivity.
  - unfold entitled. rewrite Hv. reflexivity.
Qed.

Lemma unconfigured_server_is_silent_witness :
  verifications (log_of (invoke Sample.free_cfg Sample.licensed [] "search_papers"
                           [("query", PStr "causal inference")])) = [] /\
  entitled Sample.free_cfg Sample.licensed = Some false.
Proof.
  apply (unconfigured_server_is_silent Sample.free_cfg Sample.licensed [] "search_papers"
           [("query", PStr "causal inference")]).
  reflexivity.
Defined.

(** *** The module search path and sessions *)

Lemma steady_path {A} P (m : M A) cfg w s :
  P w -> steady P m -> sys_path (snd (m cfg w s)) = sys_path s.
Proof.
  intros Hw Hm. destruct (Hm cfg w (sys_path s) Hw) as (o & evs & Hrun & _).
  rewrite <- (pstate_eta s) at 1. rewrite Hrun. reflexivity.
Qed.

Lemma try_except_path {A} (m : M A) (h : exn -> A) cfg w s :
  sys_path (snd (try_except m (fun e => ret (h e)) cfg w s)) = sys_path (snd (m cfg w s)).
Proof. rewrite try_except_ret. reflexivity. Qed.

(** Only an entitled deep dive touches [sys.path], and it brings it
    to its effective value. *)
Lemma invoke_path cfg w q name args :
  path_of (invoke cfg w q name args) =
    if String.eqb name "research_deep_dive"
       && match entitled cfg w with Some true => true | _ => false end
    then effective (core_path cfg) q else q.
Proof.
  rewrite invoke_unfold, call_tool_unfold. unfold path_of, entitled. cbn [snd].
  destruct (gate_value cfg w) as [v|e] eqn:Hv; [ | rewrite andb_false_r; reflexivity ].
  destruct (String.eqb_spec name "search_papers") as [-> | Hn]; cbn [negb andb].
  - rewrite try_except_path. unfold dispatch. cbn [String.eqb Ascii.eqb Bool.eqb].
    rewrite (steady_path anywhere _ _ _ _ I (steady_search_papers _ v args)). reflexivity.
  - destruct (truthy v) eqn:Ht; cbn [negb].
    + pose proof (gate_granted_calm cfg w v Hv Ht) as Hcalm.
      rewrite andb_true_r, try_except_path. unfold dispatch.
      apply String.eqb_neq in Hn. rewrite Hn.
      destruct (String.eqb name "research_deep_dive").
      { rewrite research_deep_dive_run, try_except_path.
        rewrite (steady_path anywhere _ _ _ _ I (steady_agent_session _ _ args)).
        reflexivity. }
      destruct (String.eqb name "get_zotero_papers").
      { unfold get_zotero_papers. rewrite try_except_path.
        rewrite (steady_path anywhere _ _ _ _ I (steady_zotero_session _ args)).
        reflexivity. }
      destruct (String.eqb name "read_arxiv_pdf").
      { rewrite (steady_path calm _ _ _ _ Hcalm (steady_read_arxiv_pdf args)).
        reflexivity. }
      destruct (String.eqb name "verify_citation").
      { rewrite (steady_path anywhere _ _ _ _ I (steady_verify_citation _ args)).
        reflexivity. }
      destruct (String.eqb name "get_financial_data").
      { rewrite (steady_path anywhere _ _ _ _ I (steady_get_financial_data _ args)).
        reflexivity. }
      reflexivity.
    + rewrite andb_false_r. reflexivity.
Qed.

Lemma final_path_form cfg q reqs :
  final_path cfg q reqs = path_after cfg q reqs.
Proof.
  unfold path_after. revert q.
  induction reqs as [|r rest IH]; intros q; cbn [final_path existsb].
  - reflexivity.
  - rewrite IH, invoke_path. unfold entitled_deep_dive at 2.
    destruct (String.eqb (req_name r) "research_deep_dive"
              && match entitled cfg (req_world r) with Some true => true | _ => false end);
      cbn [orb].
    + rewrite effective_idem. destruct (existsb _ rest); reflexivity.
    + reflexivity.
Qed.

(** X12.  Over a whole session [sys.path] changes at most once: it is
    the path the process started with until the first entitled
    [research_deep_dive], and from then on that path with the core
    directory in front, unless the directory was already listed, in
    which case it never changes.  The directory is never inserted
    twice. *)
Theorem sys_path_grows_once cfg p reqs :
  final_path cfg p reqs =
    (if existsb (fun r => String.eqb (req_name r) "research_deep_dive"
                          && match entitled cfg (req_world r) with
                             | Some true => true
                             | _ => false
                             end) reqs
     then effective (core_path cfg) p else p) /\
  (final_path cfg p reqs = p \/ final_path cfg p reqs = core_path cfg :: p).
Proof.
  split; [ apply final_path_form | ].
  rewrite final_path_form. unfold path_after.
  destruct (existsb _ reqs); [ | left; reflexivity ].
  unfold effective. destruct (existsb _ p); [ left | right ]; reflexivity.
Qed.

Lemma sys_path_grows_once_witness :
  final_path Sample.pro_cfg [] (Sample.session ++ Sample.session) = ["/srv/Cite-Agent"].
Proof.
  rewrite (proj1 (sys_path_grows_once Sample.pro_cfg [] (Sample.session ++ Sample.session))).
  vm_compute. reflexivity.
Defined.







(** *** Full-text retrieval *)







Lemma arxiv_url_str s : arxiv_url (PStr s) = Ret (fetched_url s).
Proof. unfold arxiv_url, fetched_url. destruct (startswith s "http"); reflexivity. Qed.


Lemma delegated_calls (l : list call) :
  Forall (fun c => is_delegation c = true) l -> delegated (map Called l) = l.
Proof.
  induction 1 as [|c l Hc _ IH]; cbn; [ reflexivity | ].
  rewrite Hc. cbn. f_equal. exact IH.
Qed.






Lemma arxiv_invoke cfg w p args :
  entitled cfg w = Some true ->
  result_of (invoke cfg w p "read_arxiv_pdf" args) =
    match fst (read_arxiv_pdf args cfg w (PState p (gate_log cfg w))) with
    | Ret r => Ret r
    | Raise e => Ret (text_content (system_error e))
    end /\
  log_of (invoke cfg w p "read_arxiv_pdf" args) =
    log (snd (read_arxiv_pdf args cfg w (PState p (gate_log cfg w)))).
Proof.
  intros He.
  destruct (invoke_open cfg w p "read_arxiv_pdf" args true He (or_intror eq_refl))
    as (v & Hv & _ & Hrun).
  rewrite invoke_unfold, Hrun, try_except_ret. unfold result_of, log_of. cbn [fst snd].
  unfold dispatch. cbn [String.eqb Ascii.eqb Bool.eqb]. split; reflexivity.
Qed.






(** *** Full-text retrieval: failures and short documents *)



(** X8.  An identifier that is not a string is never fetched: no GET
    leaves the server, and, the reader library being importable, the
    result is the notice of the [AttributeError] for [startswith]. *)
Theorem arxiv_identifier_not_text cfg w p args v :
  entitled cfg w = Some true ->
  dict_get args "url_or_id" = Some v ->
  (forall s, v <> PStr s) ->
  (forall u, ~ In (Called (HttpGet u)) (log_of (invoke cfg w p "read_arxiv_pdf" args))) /\
  (import_pdf_reader w p = Ret tt ->
   result_of (invoke cfg w p "read_arxiv_pdf" args) =
     Ret (text_content
            ("❌ System Error: '" ++ type_name v
               ++ "' object has no attribute 'startswith'"))).
Proof.
  intros He Hu Hv. destruct (arxiv_invoke cfg w p args He) as (-> & ->).
  unfold read_arxiv_pdf.
  unfold bind, get_sys_path, perform, record, getitem, lift, subscript.
  rewrite Hu. cbn [fst snd sys_path log].
  assert (Hraise : arxiv_url v =
            Raise (Exn "AttributeError"
                     ("'" ++ type_name v ++ "' object has no attribute 'startswith'"))).
  { destruct v; try reflexivity. destruct (Hv s eq_refl). }
  rewrite Hraise.
  destruct (import_pdf_reader w p) as [[]|e]; cbn [fst snd log sys_path]; split.
  - intros u Hin. apply in_app_or in Hin. destruct Hin as [Hin | [Hin | []]].
    + apply gate_log_called in Hin. discriminate Hin.
    + discriminate Hin.
  - intros _. reflexivity.
  - intros u Hin. rewrite <- app_assoc in Hin. apply in_app_or in Hin.
    destruct Hin as [Hin | [Hin | [Hin | []]]]; try discriminate Hin.
    apply gate_log_called in Hin. discriminate Hin.
  - intros H. discriminate H.
Qed.

Lemma arxiv_identifier_not_text_witness :
  (forall u, ~ In (Called (HttpGet u))
               (log_of (invoke Sample.pro_cfg Sample.licensed [] "read_arxiv_pdf"
                          [("url_or_id", PInt 2308)]))) /\
  (import_pdf_reader Sample.licensed [] = Ret tt ->
   result_of (invoke Sample.pro_cfg Sample.licensed [] "read_arxiv_pdf"
                [("url_or_id", PInt 2308)]) =
     Ret (text_content
            ("❌ System Error: '" ++ type_name (PInt 2308)
               ++ "' object has no attribute 'startswith'"))).
Proof.
  apply (arxiv_identifier_not_text Sample.pro_cfg Sample.licensed []
           [("url_or_id", PInt 2308)] (PInt 2308));
    [ reflexivity | reflexivity | discriminate ].
Defined.





(** X11.  An identifier is wrapped at most once: the address built
    for an identifier is itself taken as an address, so handing the
    tool the address it would have fetched fetches the same address. *)
Theorem fetched_url_idempotent s u :
  arxiv_url (PStr s) = Ret u -> arxiv_url (PStr u) = Ret u.
Proof.
  rewrite !arxiv_url_str. intros H. injection H as <-. f_equal.
  unfold fetched_url at 2 3. destruct (startswith s "http") eqn:Hs.
  - unfold fetched_url. rewrite Hs. reflexivity.
  - reflexivity.
Qed.

Lemma fetched_url_idempotent_witness :
  arxiv_url (PStr "https://arxiv.org/pdf/2308.07901.pdf")
    = Ret "https://arxiv.org/pdf/2308.07901.pdf".
Proof.
  apply (fetched_url_idempotent "2308.07901" "https://arxiv.org/pdf/2308.07901.pdf").
  reflexivity.
Defined.

(** *** Missing arguments *)

Lemma required_key_cases name k :
  required_key name = Some k ->
  (name = "search_papers" /\ k = "query") \/
  (name = "research_deep_dive" /\ k = "question") \/
  (name = "get_zotero_papers" /\ k = "query") \/
  (name = "read_arxiv_pdf" /\ k = "url_or_id") \/
  (name = "verify_citation" /\ k = "citation") \/
  (name = "get_financial_data" /\ k = "query").
Proof.
  unfold required_key.
  repeat match goal with
         | |- context [String.eqb name ?lit] =>
             destruct (String.eqb_spec name lit) as [-> | _]
         end; intros H; try discriminate H; injection H as <-; tauto.
Qed.

Lemma key_error_notice printable k :
  is_error_notice (text_content (system_error (key_error printable k))) = true /\
  contains (system_error (key_error printable k)) (repr_str printable k).
Proof. exact (system_error_notice (key_error printable k)). Qed.

Ltac no_raise Hno :=
  exfalso;
  match type of Hno with
  | forall c e, In (Raised c e) ?L -> _ =>
      match L with
      | context [Raised ?c0 ?e0] =>
          let Hin := fresh "Hin" in
          assert (Hin : In (Raised c0 e0) L)
            by (rewrite ?in_app_iff; cbn [In]; intuition reflexivity);
          specialize (Hno _ _ Hin); discriminate Hno
      end
  end.

Ltac notice_of lem :=
  eexists; split; [ reflexivity | ]; cbn [text];
  split; [ reflexivity | ];
  let Hno := fresh "Hno" in
  intros Hno; first [ no_raise Hno | exact (proj2 lem) ].

(** A catalog tool called without the key it reads, the gate letting
    the call through. *)
Lemma missing_key_notice cfg w p name args k b :
  required_key name = Some k ->
  dict_get args k = None ->
  entitled cfg w = Some b ->
  name = "search_papers" \/ b = true ->
  exists t,
    result_of (invoke cfg w p name args) = Ret [t] /\
    is_error_notice [t] = true /\
    ((forall c e, In (Raised c e) (log_of (invoke cfg w p name args)) ->
                  is_delegation c = false) ->
     contains (text t) (repr_str (isprintable cfg) k)).
Proof.
  intros Hreq Hk He Hgate.
  destruct (invoke_open cfg w p name args b He Hgate) as (v & Hv & _ & Hrun).
  rewrite invoke_unfold, Hrun, try_except_ret. unfold result_of, log_of. cbn [fst snd].
  destruct (required_key_cases name k Hreq)
    as [[-> ->] | [[-> ->] | [[-> ->] | [[-> ->] | [[-> ->] | [-> ->]]]]]];
    unfold dispatch; cbn [String.eqb Ascii.eqb Bool.eqb].
  - unfold search_papers, subscript. run_m. unfold subscript. rewrite Hk.
    cbn [fst snd log sys_path].
    notice_of (key_error_notice (isprintable cfg) "query").
  - rewrite research_deep_dive_run, try_except_ret.
    unfold agent_session. run_m. unfold subscript. rewrite Hk.
    destruct (import_agent w _) as [[]|e]; cbn [fst snd log sys_path];
      [ | notice_of (integration_error_notice e) ].
    destruct (agent_new w) as [[]|e]; cbn [fst snd log sys_path];
      [ | notice_of (integration_error_notice e) ].
    destruct (agent_initialize w) as [[]|e]; cbn [fst snd log sys_path];
      [ | notice_of (integration_error_notice e) ].
    notice_of (integration_error_notice (key_error (isprintable cfg) "question")).
  - unfold get_zotero_papers. rewrite try_except_ret. unfold zotero_session. run_m.
    unfold subscript. rewrite Hk.
    destruct (import_zotero w _) as [[]|e]; cbn [fst snd log sys_path];
      [ | notice_of (zotero_error_notice e) ].
    destruct (zotero_new w _ _) as [[]|e]; cbn [fst snd log sys_path];
      [ | notice_of (zotero_error_notice e) ].
    notice_of (zotero_error_notice (key_error (isprintable cfg) "query")).
  - unfold read_arxiv_pdf.
    unfold bind, get_sys_path, perform, record, getitem, lift, subscript.
    rewrite Hk. cbn [fst snd sys_path log].
    destruct (import_pdf_reader w _) as [[]|e]; cbn [fst snd log sys_path].
    + notice_of (key_error_notice (isprintable cfg) "url_or_id").
    + notice_of (system_error_notice e).
  - unfold verify_citation. run_m. unfold subscript. rewrite Hk.
    cbn [fst snd log sys_path].
    notice_of (key_error_notice (isprintable cfg) "citation").
  - unfold get_financial_data. run_m. unfold subscript. rewrite Hk.
    cbn [fst snd log sys_path].
    notice_of (key_error_notice (isprintable cfg) "query").
Qed.

(** C9 (as amended).  When the gate lets the call through and the
    arguments lack the key the tool reads, the result is one error
    notice: the [KeyError] of the missing key, named in the text,
    unless a collaborator that the handler consults before it reads
    the key has failed, in which case the notice is that of the
    failure. *)
Theorem missing_key_reported cfg w p name args k b :
  required_key name = Some k ->
  dict_get args k = None ->
  entitled cfg w = Some b ->
  name = "search_papers" \/ b = true ->
  exists t,
    result_of (invoke cfg w p name args) = Ret [t] /\
    is_error_notice [t] = true /\
    ((forall c e, In (Raised c e) (log_of (invoke cfg w p name args)) ->
                  is_delegation c = false) ->
     contains (text t) (repr_str (isprintable cfg) k)).
Proof. exact (missing_key_notice cfg w p name args k b). Qed.

Lemma missing_key_reported_witness :
  exists t,
    result_of (invoke Sample.free_cfg Sample.licensed [] "search_papers" []) = Ret [t] /\
    is_error_notice [t] = true /\
    ((forall c e,
        In (Raised c e) (log_of (invoke Sample.free_cfg Sample.licensed [] "search_papers" [])) ->
        is_delegation c = false) ->
     contains (text t) "'query'").
Proof.
  apply (missing_key_reported Sample.free_cfg Sample.licensed [] "search_papers" [] "query"
           false).
  - reflexivity.
  - reflexivity.
  - reflexivity.
  - left. reflexivity.
Defined.

(** C9 as stated fails: [verify_citation] called without its
    [citation] key and without a license is answered with the locked
    notice, not with an error result. *)
Lemma missing_key_unlicensed_is_locked :
  required_key "verify_citation" = Some "citation" /\
  dict_get [] "citation" = None /\
  result_of (invoke Sample.free_cfg Sample.licensed [] "verify_citation" [])
    = Ret (text_content (locked_notice "cite-agent-pro" "verify_citation")) /\
  is_error_notice (text_content (locked_notice "cite-agent-pro" "verify_citation")) = false.
Proof. repeat split. Qed.

(** *** The research agent *)

Lemma deep_dive_invoke cfg w p args :
  entitled cfg w = Some true ->
  result_of (invoke cfg w p "research_deep_dive" args) =
    match fst (agent_session (effective (core_path cfg) p) args cfg w
                 (PState (effective (core_path cfg) p) (gate_log cfg w))) with
    | Ret r => Ret r
    | Raise e => Ret (text_content (integration_error e))
    end /\
  log_of (invoke cfg w p "research_deep_dive" args) =
    log (snd (agent_session (effective (core_path cfg) p) args cfg w
                (PState (effective (core_path cfg) p) (gate_log cfg w)))).
Proof.
  intros He.
  destruct (invoke_open cfg w p "research_deep_dive" args true He (or_intror eq_refl))
    as (v & Hv & _ & Hrun).
  rewrite invoke_unfold, Hrun, try_except_ret. unfold result_of, log_of. cbn [fst snd].
  unfold dispatch. cbn [String.eqb Ascii.eqb Bool.eqb].
  rewrite research_deep_dive_run, try_except_ret. cbn [fst snd sys_path log].
  destruct (fst (agent_session _ args cfg w _)); split; reflexivity.
Qed.

Ltac in_log H :=
  rewrite <- ?app_assoc in H;
  repeat (apply in_app_or in H; destruct H as [H | H]);
  try (apply gate_log_called in H; discriminate H);
  cbn [In] in H;
  repeat match type of H with
         | _ \/ _ => destruct H as [H | H]
         end;
  try discriminate H; try contradiction.

(** X13.  The agent is closed only after it has answered: a log that
    shows [agent.close()] belongs to a call whose [question] was
    present and whose [process_request] returned.  When
    [process_request] raises, or when the question is missing, the
    agent that was created and initialised is left unclosed. *)
Theorem agent_closed_only_after_answer cfg w p args :
  (In (Called AgentClose) (log_of (invoke cfg w p "research_deep_dive" args)) ->
   exists q resp,
     dict_get args "question" = Some q /\ agent_process w q = Ret resp) /\
  (entitled cfg w = Some true ->
   import_agent w (effective (core_path cfg) p) = Ret tt ->
   agent_new w = Ret tt ->
   agent_initialize w = Ret tt ->
   dict_get args "question" = None ->
   delegated (log_of (invoke cfg w p "research_deep_dive" args))
     = [ImportAgent (effective (core_path cfg) p); AgentNew; AgentInitialize]).
Proof.
  split.
  - destruct (entitled cfg w) as [[|]|] eqn:He.
    + destruct (deep_dive_invoke cfg w p args He) as (_ & ->).
      unfold agent_session. run_m. unfold subscript.
      destruct (import_agent w _) as [[]|e]; cbn [fst snd log sys_path];
        [ | intros H; in_log H ].
      destruct (agent_new w) as [[]|e]; cbn [fst snd log sys_path];
        [ | intros H; in_log H ].
      destruct (agent_initialize w) as [[]|e]; cbn [fst snd log sys_path];
        [ | intros H; in_log H ].
      destruct (dict_get args "question") as [q|] eqn:Hq; cbn [fst snd log sys_path];
        [ | intros H; in_log H ].
      destruct (chat_request_new w q) as [[]|e]; cbn [fst snd log sys_path];
        [ | intros H; in_log H ].
      destruct (agent_process w q) as [resp|e] eqn:Hp; cbn [fst snd log sys_path];
        [ | intros H; in_log H ].
      intros _. exists q, resp. split; [ reflexivity | exact Hp ].
    + rewrite (invoke_locked cfg w p "research_deep_dive" args) by (discriminate || exact He).
      unfold log_of. cbn [fst snd]. intros H.
      apply gate_log_called in H. discriminate H.
    + unfold entitled in He. destruct (gate_value cfg w) as [v|e] eqn:Hv;
        [ discriminate He | ].
      rewrite (invoke_raised cfg w p "research_deep_dive" args e Hv).
      unfold log_of. cbn [fst snd]. intros H.
      apply gate_log_called in H. discriminate H.
  - intros He Hi Hn Hinit Hq.
    destruct (deep_dive_invoke cfg w p args He) as (_ & ->).
    unfold agent_session. run_m. unfold subscript.
    rewrite Hi. cbn [fst snd log sys_path]. rewrite Hn. cbn [fst snd log sys_path].
    rewrite Hinit. cbn [fst snd log sys_path]. rewrite Hq. cbn [fst snd log sys_path].
    rewrite <- ?app_assoc. rewrite !delegated_app, gate_log_no_delegation. reflexivity.
Qed.

Lemma agent_closed_only_after_answer_witness :
  delegated (log_of (invoke Sample.pro_cfg Sample.licensed [] "research_deep_dive" []))
    = [ImportAgent ["/srv/Cite-Agent"]; AgentNew; AgentInitialize].
Proof.
  apply (proj2 (agent_closed_only_after_answer Sample.pro_cfg Sample.licensed [] []));
    reflexivity.
Defined.

(** X14.  A deep dive in which every step works: the library is
    imported with the core directory on the search path, the agent is
    created, initialised, asked once and closed, in that order, and
    the result is the agent's error message under [Agent Error] when
    that message is truthy, and its answer under the synthesis heading
    otherwise (or the [Integration Error] notice when the text to show
    cannot be formatted). *)
Theorem deep_dive_answer cfg w p args q resp :
  entitled cfg w = Some true ->
  dict_get args "question" = Some q ->
  import_agent w (effective (core_path cfg) p) = Ret tt ->
  agent_new w = Ret tt ->
  agent_initialize w = Ret tt ->
  chat_request_new w q = Ret tt ->
  agent_process w q = Ret resp ->
  agent_close w = Ret tt ->
  result_of (invoke cfg w p "research_deep_dive" args) =
    Ret (text_content
           (if truthy (error_message resp)
            then match py_str (isprintable cfg) (error_message resp) with
                 | Ret message => "❌ Agent Error: " ++ message
                 | Raise e => "❌ Integration Error: " ++ exn_msg e
                 end
            else match py_str (isprintable cfg) (response_text resp) with
                 | Ret answer => "🧠 **Deep Research Synthesis**" ++ nl ++ nl ++ answer
                 | Raise e => "❌ Integration Error: " ++ exn_msg e
                 end)) /\
  delegated (log_of (invoke cfg w p "research_deep_dive" args)) =
    [ImportAgent (effective (core_path cfg) p); AgentNew; AgentInitialize;
     ChatRequestNew q; AgentProcess q; AgentClose] /\
  In (core_path cfg) (effective (core_path cfg) p).
Proof.
  intros He Hq Hi Hn Hinit Hc Hp Hcl.
  destruct (deep_dive_invoke cfg w p args He) as (-> & ->).
  unfold agent_session. run_m. unfold subscript.
  rewrite Hi. cbn [fst snd log sys_path]. rewrite Hn. cbn [fst snd log sys_path].
  rewrite Hinit. cbn [fst snd log sys_path]. rewrite Hq. cbn [fst snd log sys_path].
  rewrite Hc. cbn [fst snd log sys_path]. rewrite Hp. cbn [fst snd log sys_path].
  rewrite Hcl. cbn [fst snd log sys_path].
  split; [ | split ].
  - destruct (truthy (error_message resp)).
    + destruct (py_str (isprintable cfg) (error_message resp)); reflexivity.
    + destruct (py_str (isprintable cfg) (response_text resp)); reflexivity.
  - destruct (truthy (error_message resp));
      [ destruct (py_str (isprintable cfg) (error_message resp))
      | destruct (py_str (isprintable cfg) (response_text resp)) ];
      cbn [fst snd log sys_path];
      rewrite <- ?app_assoc; rewrite !delegated_app, gate_log_no_delegation; reflexivity.
  - apply effective_has_core.
Qed.

Lemma deep_dive_answer_witness :
  result_of (invoke Sample.pro_cfg Sample.licensed [] "research_deep_dive"
               [("question", PStr "LLM alignment")]) =
    Ret (text_content ("🧠 **Deep Research Synthesis**" ++ nl ++ nl ++ "synthesis")) /\
  delegated (log_of (invoke Sample.pro_cfg Sample.licensed [] "research_deep_dive"
                       [("question", PStr "LLM alignment")])) =
    [ImportAgent ["/srv/Cite-Agent"]; AgentNew; AgentInitialize;
     ChatRequestNew (PStr "LLM alignment"); AgentProcess (PStr "LLM alignment");
     AgentClose] /\
  In "/srv/Cite-Agent" ["/srv/Cite-Agent"].
Proof.
  apply (deep_dive_answer Sample.pro_cfg Sample.licensed []
           [("question", PStr "LLM alignment")] (PStr "LLM alignment")
           (ChatResponse PNone (PStr "synthesis"))); reflexivity.
Defined.

(** *** The reference library *)

Lemma zotero_invoke cfg w p args :
  entitled cfg w = Some true ->
  result_of (invoke cfg w p "get_zotero_papers" args) =
    fst (get_zotero_papers args cfg w (PState p (gate_log cfg w))) /\
  log_of (invoke cfg w p "get_zotero_papers" args) =
    log (snd (get_zotero_papers args cfg w (PState p (gate_log cfg w)))).
Proof.
  intros He.
  destruct (invoke_open cfg w p "get_zotero_papers" args true He (or_intror eq_refl))
    as (v & Hv & _ & Hrun).
  rewrite invoke_unfold, Hrun, try_except_ret. unfold result_of, log_of. cbn [fst snd].
  unfold dispatch. cbn [String.eqb Ascii.eqb Bool.eqb].
  unfold get_zotero_papers. rewrite try_except_ret. cbn [fst snd].
  destruct (fst _); split; reflexivity.
Qed.

(** X15.  An entitled [get_zotero_papers] ends in one of two ways:
    with the serialised items that the library returned for the
    query, or with a [Zotero Error] notice that always carries the
    hint about the two environment variables, whatever went wrong (a
    missing [query] included).  The client is built from the two
    environment variables as they are, unset ones included. *)
Theorem zotero_outcome cfg w p args :
  entitled cfg w = Some true ->
  ((exists q items out,
      dict_get args "query" = Some q /\ zotero_top w q = Ret items /\
      json_dumps w items = Ret out /\
      result_of (invoke cfg w p "get_zotero_papers" args) = Ret (text_content out))
   \/
   (exists e,
      result_of (invoke cfg w p "get_zotero_papers" args)
        = Ret (text_content (zotero_error e)) /\
      contains (zotero_error e) "Ensure ZOTERO_USER_ID and ZOTERO_API_KEY are set.")) /\
  (forall u k,
     In (Called (ZoteroNew u k)) (log_of (invoke cfg w p "get_zotero_papers" args)) ->
     u = ZOTERO_USER_ID cfg /\ k = ZOTERO_API_KEY cfg).
Proof.
  intros He. destruct (zotero_invoke cfg w p args He) as (-> & ->).
  assert (Hhint : forall e,
            contains (zotero_error e) "Ensure ZOTERO_USER_ID and ZOTERO_API_KEY are set.").
  { intros e. unfold zotero_error. do 2 apply contains_skip.
    exists ". ", EmptyString. reflexivity. }
  unfold get_zotero_papers. rewrite try_except_ret. cbn [fst snd].
  unfold zotero_session. run_m. unfold subscript.
  destruct (import_zotero w _) as [[]|e]; cbn [fst snd log sys_path].
  2: { split; [ right; eexists; split; [ reflexivity | apply Hhint ] | ].
       intros u k H. in_log H. }
  destruct (zotero_new w _ _) as [[]|e]; cbn [fst snd log sys_path].
  2: { split; [ right; eexists; split; [ reflexivity | apply Hhint ] | ].
       intros u k H. in_log H. injection H as <- <-. split; reflexivity. }
  destruct (dict_get args "query") as [q|] eqn:Hq; cbn [fst snd log sys_path].
  2: { split; [ right; eexists; split; [ reflexivity | apply Hhint ] | ].
       intros u k H. in_log H. injection H as <- <-. split; reflexivity. }
  destruct (zotero_top w q) as [items|e] eqn:Ht; cbn [fst snd log sys_path].
  2: { split; [ right; eexists; split; [ reflexivity | apply Hhint ] | ].
       intros u k H. in_log H. injection H as <- <-. split; reflexivity. }
  destruct (json_dumps w items) as [out|e] eqn:Hd; cbn [fst snd log sys_path].
  2: { split; [ right; eexists; split; [ reflexivity | apply Hhint ] | ].
       intros u k H. in_log H. injection H as <- <-. split; reflexivity. }
  split.
  - left. exists q, items, out. repeat split; assumption.
  - intros u k H. in_log H. injection H as <- <-. split; reflexivity.
Qed.

Lemma zotero_outcome_witness :
  ((exists q items out,
      dict_get [("query", PStr "attention")] "query" = Some q /\
      zotero_top Sample.licensed q = Ret items /\
      json_dumps Sample.licensed items = Ret out /\
      result_of (invoke Sample.pro_cfg Sample.licensed [] "get_zotero_papers"
                   [("query", PStr "attention")]) = Ret (text_content out))
   \/
   (exists e,
      result_of (invoke Sample.pro_cfg Sample.licensed [] "get_zotero_papers"
                   [("query", PStr "attention")])
        = Ret (text_content (zotero_error e)) /\
      contains (zotero_error e) "Ensure ZOTERO_USER_ID and ZOTERO_API_KEY are set.")) /\
  (forall u k,
     In (Called (ZoteroNew u k))
        (log_of (invoke Sample.pro_cfg Sample.licensed [] "get_zotero_papers"
                   [("query", PStr "attention")])) ->
     u = ZOTERO_USER_ID Sample.pro_cfg /\ k = ZOTERO_API_KEY Sample.pro_cfg).
Proof.
  apply (zotero_outcome Sample.pro_cfg Sample.licensed [] [("query", PStr "attention")]).
  reflexivity.
Defined.

(** *** The advertised tools and the dispatcher *)

(** X19.  The tier a tool advertises is the tier the gate enforces.
    For a caller who is not entitled, every tool whose description is
    marked [PRO] answers with the locked notice for its own name and
    reaches no collaborator; the one tool marked [FREE] is let
    through, and with a query and no count it runs the search for 5
    results. *)
Theorem advertised_tier_enforced cfg w p x args :
  In x list_tools ->
  entitled cfg w = Some false ->
  (startswith (Tool.description x) "[PRO]" = true /\
   result_of (invoke cfg w p (Tool.name x) args)
     = Ret (text_content (locked_notice (GUMROAD_PRODUCT_PERMALINK cfg) (Tool.name x))) /\
   delegated (log_of (invoke cfg w p (Tool.name x) args)) = [])
  \/
  (startswith (Tool.description x) "[FREE]" = true /\
   forall q topic,
     dict_get args "query" = Some q ->
     py_str (isprintable cfg) q = Ret topic ->
     dict_get args "max_results" = None ->
     delegated (log_of (invoke cfg w p (Tool.name x) args))
       = [SubprocessRun
            [PStr "cite-agent";
             PStr ("Find academic papers on: " ++ topic ++ ". Show 5 results.")]]).
Proof.
  intros Hx He.
  destruct Hx as [<- | [<- | [<- | [<- | [<- | [<- | []]]]]]]; cbn [Tool.name Tool.description].
  1: { right. split; [ reflexivity | ]. intros q topic Hq Ht Hm.
       assert (Hreq : requested_count args = PInt 10)
         by (unfold requested_count; rewrite Hm; reflexivity).
       destruct (search_runs_plan cfg w p args false He) as (_ & ->).
       rewrite (search_plan_int cfg false args q topic 10 5 Hq Ht Hreq eq_refl).
       rewrite (str_int_small 5) by (apply small_bound; lia). reflexivity. }
  all: left; split; [ reflexivity | ];
    rewrite invoke_locked by (discriminate || exact He);
    unfold result_of, log_of; cbn [fst snd];
    split; [ reflexivity | apply gate_log_no_delegation ].
Qed.

Lemma advertised_tier_enforced_witness :
  (startswith "[PRO] Get verified financial data from SEC EDGAR and FRED. Requires License Key."
     "[PRO]" = true /\
   result_of (invoke Sample.free_cfg Sample.licensed [] "get_financial_data" [])
     = Ret (text_content (locked_notice "cite-agent-pro" "get_financial_data")) /\
   delegated (log_of (invoke Sample.free_cfg Sample.licensed [] "get_financial_data" [])) = [])
  \/
  (startswith "[PRO] Get verified financial data from SEC EDGAR and FRED. Requires License Key."
     "[FREE]" = true /\
   forall q topic,
     dict_get [] "query" = Some q ->
     py_str (fun _ => true) q = Ret topic ->
     dict_get [] "max_results" = None ->
     delegated (log_of (invoke Sample.free_cfg Sample.licensed [] "get_financial_data" []))
       = [SubprocessRun
            [PStr "cite-agent";
             PStr ("Find academic papers on: " ++ topic ++ ". Show 5 results.")]]).
Proof.
  apply (advertised_tier_enforced Sample.free_cfg Sample.licensed []
           (Tool.make "get_financial_data"
              "[PRO] Get verified financial data from SEC EDGAR and FRED. Requires License Key."
              (PDict
                 [("type", PStr "object");
                  ("properties",
                   PDict
                     [("query",
                       PDict [("type", PStr "string");
                              ("description",
                               PStr "Ticker or financial question (e.g. 'AAPL Revenue')")])]);
                  ("required", PList [PStr "query"])])) []).
  - cbn. tauto.
  - reflexivity.
Defined.

(** X20.  What the schemas of [list_tools] mark as required is what
    the handlers read.  For every advertised tool and every key its
    schema lists under [required], an entitled call whose arguments
    lack that key ends in one error notice, which names the key unless
    a collaborator consulted before the key is read has failed. *)
Theorem advertised_required_keys_are_read cfg w p x k args :
  In x list_tools ->
  In k (Tool.required x) ->
  dict_get args k = None ->
  entitled cfg w = Some true ->
  exists t,
    result_of (invoke cfg w p (Tool.name x) args) = Ret [t] /\
    is_error_notice [t] = true /\
    ((forall c e, In (Raised c e) (log_of (invoke cfg w p (Tool.name x) args)) ->
                  is_delegation c = false) ->
     contains (text t) (repr_str (isprintable cfg) k)).
Proof.
  intros Hx Hk Hmiss He.
  apply (missing_key_notice cfg w p (Tool.name x) args k true); try assumption.
  - destruct Hx as [<- | [<- | [<- | [<- | [<- | [<- | []]]]]]];
      cbn in Hk; destruct Hk as [<- | []]; reflexivity.
  - right. reflexivity.
Qed.

Lemma advertised_required_keys_are_read_witness :
  exists t,
    result_of (invoke Sample.pro_cfg Sample.licensed [] "verify_citation" []) = Ret [t] /\
    is_error_notice [t] = true /\
    ((forall c e,
        In (Raised c e) (log_of (invoke Sample.pro_cfg Sample.licensed [] "verify_citation" [])) ->
        is_delegation c = false) ->
     contains (text t) "'citation'").
Proof.
  apply (advertised_required_keys_are_read Sample.pro_cfg Sample.licensed []
           (Tool.make "verify_citation"
              "[PRO] Verify academic citations and check if claims are supported by sources. Requires License Key."
              (PDict
                 [("type", PStr "object");
                  ("properties",
                   PDict
                     [("citation",
                       PDict [("type", PStr "string");
                              ("description", PStr "Full citation text to verify")])]);
                  ("required", PList [PStr "citation"])]))
           "citation" []).
  - cbn. tauto.
  - left. reflexivity.
  - reflexivity.
  - reflexivity.
Defined.

(** ** Worked examples *)

(** A falsy [success] is handed back as it is: the gate can return
    [None]. *)
Example gate_returns_none :
  gate_value Sample.pro_cfg
    (Sample.online 200 (Ret (PDict [("success", PNone)])) (Ret "ok")) = Ret PNone.
Proof. reflexivity. Qed.

(** A [purchase] entry that is [null] makes the lookup of [refunded]
    fail, and the gate answers [False]. *)
Example gate_null_purchase :
  gate_value Sample.pro_cfg
    (Sample.online 200 (Ret (PDict [("success", PBool true); ("purchase", PNone)]))
       (Ret "ok")) = Ret (PBool false).
Proof. reflexivity. Qed.

(** A refunded purchase is not entitled. *)
Example gate_refunded :
  entitled Sample.pro_cfg (Sample.online 200 (Ret (Sample.body true true)) (Ret "ok"))
    = Some false.
Proof. reflexivity. Qed.

(** The paid citation check of an entitled caller reaches the
    subprocess with the citation as supplied. *)
Example verify_citation_delegates :
  invoke Sample.pro_cfg Sample.licensed [] "verify_citation"
    [("citation", PStr "Vaswani et al. 2017")] =
  (Ret (text_content "ok"),
   [Called ClientOpen;
    Called (LicenseVerify "cite-agent-pro" "KEY-1234");
    Called ClientClose;
    Called (SubprocessRun [PStr "cite-agent";
                           PStr "Verify this citation: Vaswani et al. 2017"])],
   []).
Proof. reflexivity. Qed.

(** A subprocess that times out gives an error notice. *)
Example timeout_is_reported :
  result_of (invoke Sample.pro_cfg
               (Sample.online 200 (Ret (Sample.body true false))
                  (Raise (Exn "TimeoutExpired" "timed out after 60 seconds")))
               [] "get_financial_data" [("query", PStr "AAPL Revenue")])
    = Ret (text_content "❌ System Error: timed out after 60 seconds").
Proof. reflexivity. Qed.

(** The whole log of a paper read: the gate's client, then the
    download's. *)
Example read_arxiv_pdf_log :
  log_of (invoke Sample.pro_cfg Sample.licensed [] "read_arxiv_pdf"
            [("url_or_id", PStr "2308.07901")]) =
  [Called ClientOpen;
   Called (LicenseVerify "cite-agent-pro" "KEY-1234");
   Called ClientClose;
   Called ImportPdfReader;
   Called ClientOpen;
   Called (HttpGet "https://arxiv.org/pdf/2308.07901.pdf");
   Called (PdfOpen "%PDF");
   Called (PdfExtract 0);
   Called (PdfExtract 1);
   Called ClientClose].
Proof. reflexivity. Qed.

(** The slice counts characters, not bytes: two characters of a text
    that starts with two-byte letters take four bytes. *)
Example str_take_counts_characters :
  str_take 2 "éèa" = "éè" /\ String.length "éè" = 4%nat /\ char_count "éèa" = 3%nat.
Proof. repeat split. Qed.

(** [repr] of a key with a quote in it, and of one with a character
    that is not printable. *)
Example repr_of_keys :
  repr_str (fun _ => true) "it's" = String dquote ("it's" ++ String dquote EmptyString) /\
  repr_str (fun _ => false) "é" = "'\xe9'".
Proof. vm_compute. repeat split. Qed.
